(** * DocuMind section segmenter: [document_processor.py]

    A shallow embedding of [DocumentProcessor] (title, abstract and section
    heuristics over the text of one PDF page) and the properties of it that
    the specification states.

    Text model.  A Python [str] is embedded as a [string]: every [ascii] is
    one code point below 256 (the Latin-1 block), on which [str.strip],
    [str.lower] and the classes of [re] are tabulated below exactly as
    CPython has them.  Code points from 256 on are outside the model. *)

From Stdlib Require Import Bool Arith Lia List NArith ZArith.
From Stdlib Require Import Ascii String DecimalString.
Import ListNotations.

Local Open Scope string_scope.
Local Open Scope list_scope.

(** ** Characters *)

Module Char.

Definition code (c : ascii) : N := N_of_ascii c.

Definition between (lo hi : N) (c : ascii) : bool :=
  (N.leb lo (code c) && N.leb (code c) hi)%bool.

(** [str.isspace] on one code point, which is also [\s] of [re] on a [str]
    pattern: TAB..CR, FS..US, SPACE, NEL and NBSP. *)
Definition is_space (c : ascii) : bool :=
  (between 9 13 c || between 28 32 c
   || N.eqb (code c) 133 || N.eqb (code c) 160)%bool.

(** [\d] of [re] on a [str] pattern: the decimal digits; below 256 these are
    0..9 only. *)
Definition is_digit (c : ascii) : bool := between 48 57 c.

(** The class [A-Z]. *)
Definition is_upper_AZ (c : ascii) : bool := between 65 90 c.

(** [str.lower] on one code point: A..Z and the Latin-1 capitals
    (U+00C0..U+00DE without the multiplication sign U+00D7) move up by 32. *)
Definition lower (c : ascii) : ascii :=
  if (between 65 90 c
      || (between 192 222 c && negb (N.eqb (code c) 215)))%bool
  then ascii_of_N (code c + 32)
  else c.

Definition newline : ascii := "010"%char.

End Char.

(** ** The [str] operations the processor uses *)

Module Str.

(** [len(s) == 0], i.e. [not s]. *)
Definition is_empty (s : string) : bool :=
  match s with
  | EmptyString => true
  | String _ _ => false
  end.

Fixpoint lstrip (s : string) : string :=
  match s with
  | EmptyString => EmptyString
  | String c s' => if Char.is_space c then lstrip s' else s
  end.

Fixpoint rstrip (s : string) : string :=
  match s with
  | EmptyString => EmptyString
  | String c s' =>
      let r := rstrip s' in
      if (Char.is_space c && is_empty r)%bool then EmptyString
      else String c r
  end.

(** [s.strip()] *)
Definition strip (s : string) : string := rstrip (lstrip s).

(** [s.lower()] *)
Fixpoint lower (s : string) : string :=
  match s with
  | EmptyString => EmptyString
  | String c s' => String (Char.lower c) (lower s')
  end.

(** [s.split('\n')]: never the empty list. *)
Fixpoint split_lines (s : string) : list string :=
  match s with
  | EmptyString => [EmptyString]
  | String c s' =>
      if Ascii.eqb c Char.newline then EmptyString :: split_lines s'
      else match split_lines s' with
           | l :: ls => String c l :: ls
           | [] => [String c EmptyString]
           end
  end.

(** [' '.join(xs)] *)
Definition join_spaces (xs : list string) : string := String.concat " " xs.

Fixpoint starts_with (w s : string) : bool :=
  match w, s with
  | EmptyString, _ => true
  | String a w', String b s' => (Ascii.eqb a b && starts_with w' s')%bool
  | String _ _, EmptyString => false
  end.

(** [w in s] *)
Fixpoint contains (w s : string) : bool :=
  (starts_with w s
   || match s with
      | EmptyString => false
      | String _ s' => contains w s'
      end)%bool.

(** [xs[a:b]] for non-negative [a] and [b]. *)
Definition slice {A : Type} (xs : list A) (a b : nat) : list A :=
  firstn (b - a) (skipn a xs).

(** [str(n)] for an [int]. *)
Definition of_int (n : Z) : string := NilZero.string_of_int (Z.to_int n).

End Str.

(** ** The fragment of [re] the processor uses

    Patterns are kept as syntax trees; [re.search] is a backtracking matcher
    in continuation-passing style.  The flag [ignorecase] is the inline
    [(?i)]; no pattern of the processor sets MULTILINE or DOTALL. *)

Module Re.

Inductive charset : Type :=
| Digit                          (* \d *)
| Space                          (* \s *)
| Range (lo hi : ascii)          (* [lo-hi] *)
| Chars (cs : list ascii).       (* [abc] *)

Inductive regex : Type :=
| Bol                            (* ^ *)
| Eol                            (* $ *)
| Eps
| Lit (c : ascii)
| OneOf (cs : charset)
| NoneOf (cs : charset)          (* [^...] *)
| Seq (r1 r2 : regex)
| Alt (r1 r2 : regex)
| Opt (r : regex)                (* r? *)
| Star (r : regex).              (* r* *)

(** [r+] *)
Definition Plus (r : regex) : regex := Seq r (Star r).

(** A run of literal characters. *)
Fixpoint Word (w : string) : regex :=
  match w with
  | EmptyString => Eps
  | String c w' => Seq (Lit c) (Word w')
  end.

Record pattern : Type := Pattern { ignorecase : bool; body : regex }.

Definition mem (cs : charset) (x : ascii) : bool :=
  match cs with
  | Digit => Char.is_digit x
  | Space => Char.is_space x
  | Range lo hi => Char.between (Char.code lo) (Char.code hi) x
  | Chars l => existsb (Ascii.eqb x) l
  end.

(** A literal under [(?i)] compares lower-cased code points.  The classes
    that occur under [(?i)] in this program are [\s] only, which has no case
    variants, so [mem] does not look at the flag. *)
Definition lit_eq (ic : bool) (c x : ascii) : bool :=
  if ic then Ascii.eqb (Char.lower x) (Char.lower c) else Ascii.eqb x c.

(** [$] without MULTILINE: at the end, or before a final newline. *)
Definition at_eol (s : string) : bool :=
  match s with
  | EmptyString => true
  | String c EmptyString => Ascii.eqb c Char.newline
  | String _ (String _ _) => false
  end.

(** [exec ic r bos s k]: match [r] at the head of [s]; [bos] tells whether
    the position is the beginning of the subject; [k] is tried on every way
    [r] can match.  An iteration of [Star] has to consume input, as in
    CPython, so [String.length s] rounds are enough. *)
Fixpoint exec (ic : bool) (r : regex) (bos : bool) (s : string)
         (k : bool -> string -> bool) {struct r} : bool :=
  match r with
  | Bol => (bos && k bos s)%bool
  | Eol => (at_eol s && k bos s)%bool
  | Eps => k bos s
  | Lit c =>
      match s with
      | String x s' => (lit_eq ic c x && k false s')%bool
      | EmptyString => false
      end
  | OneOf cs =>
      match s with
      | String x s' => (mem cs x && k false s')%bool
      | EmptyString => false
      end
  | NoneOf cs =>
      match s with
      | String x s' => (negb (mem cs x) && k false s')%bool
      | EmptyString => false
      end
  | Seq r1 r2 => exec ic r1 bos s (fun b' s' => exec ic r2 b' s' k)
  | Alt r1 r2 => (exec ic r1 bos s k || exec ic r2 bos s k)%bool
  | Opt r1 => (exec ic r1 bos s k || k bos s)%bool
  | Star r1 =>
      (fix loop (n : nat) (b : bool) (t : string) {struct n} : bool :=
         match n with
         | O => k b t
         | S n' =>
             (exec ic r1 b t
                (fun b' t' =>
                   if Nat.ltb (String.length t') (String.length t)
                   then loop n' b' t' else false)
              || k b t)%bool
         end) (String.length s) bos s
  end.

Definition match_here (p : pattern) (bos : bool) (s : string) : bool :=
  exec (ignorecase p) (body p) bos s (fun _ _ => true).

Fixpoint search_from (p : pattern) (bos : bool) (s : string) : bool :=
  (match_here p bos s
   || match s with
      | EmptyString => false
      | String _ s' => search_from p false s'
      end)%bool.

(** [re.search(p, s)] as a truth value: is there a match at some position? *)
Definition search (p : pattern) (s : string) : bool := search_from p true s.

End Re.

(** ** The object and its methods

    A method is a computation over the processor object: it may read the
    attributes of [self], could write them, and may raise.  The table
    [section_patterns] is a [dict]; iteration follows insertion order, so it
    is kept as an association list. *)

Record DocumentProcessor : Type :=
  { section_patterns : list (string * Re.pattern) }.

Inductive exn : Type :=
| KeyError (key : string).

Definition Py (A : Type) : Type :=
  DocumentProcessor -> (exn + A) * DocumentProcessor.

Definition ret {A : Type} (a : A) : Py A := fun self => (inr a, self).

Definition bind {A B : Type} (m : Py A) (f : A -> Py B) : Py B :=
  fun self =>
    match m self with
    | (inr a, self') => f a self'
    | (inl e, self') => (inl e, self')
    end.

Definition raise {A : Type} (e : exn) : Py A := fun self => (inl e, self).

Notation "x <- m ;; k" := (bind m (fun x => k))
  (at level 61, m at next level, right associativity).

(** [self.section_patterns.items()] *)
Definition items : Py (list (string * Re.pattern)) :=
  fun self => (inr (section_patterns self), self).

Fixpoint dict_get (d : list (string * Re.pattern)) (key : string)
  : option Re.pattern :=
  match d with
  | [] => None
  | (k, v) :: d' => if String.eqb k key then Some v else dict_get d' key
  end.

(** [self.section_patterns[key]] *)
Definition getitem (key : string) : Py Re.pattern :=
  d <- items ;;
  match dict_get d key with
  | Some p => ret p
  | None => raise (KeyError key)
  end.

(** ** The patterns of the program *)

Module Patterns.
Import Re.

Definition Cat (rs : list regex) : regex := fold_right Seq Eps rs.

Definition spaces : regex := Star (OneOf Space).          (* \s* *)
Definition spaces1 : regex := Plus (OneOf Space).         (* \s+ *)
Definition digits1 : regex := Plus (OneOf Digit).         (* \d+ *)
Definition upper_AZ : regex := OneOf (Range "A" "Z").     (* [A-Z] *)
Definition plural (w : string) : regex :=                 (* ws? *)
  Seq (Word w) (Opt (Lit "s")).

(** [r'^[A-Z][^.!?]*$'] *)
Definition title : pattern :=
  Pattern false
    (Cat [Bol; upper_AZ; Star (NoneOf (Chars ["."; "!"; "?"]%char)); Eol]).

(** [r'(?i)^(abstract|summary)'] *)
Definition abstract : pattern :=
  Pattern true (Cat [Bol; Alt (Word "abstract") (Word "summary")]).

(** [r'(?i)^(introduction|1\.\s*introduction)'] *)
Definition introduction : pattern :=
  Pattern true
    (Cat [Bol; Alt (Word "introduction")
                   (Cat [Word "1."; spaces; Word "introduction"])]).

(** [r'(?i)^(methodology|methods?|2\.\s*method)'] *)
Definition methodology : pattern :=
  Pattern true
    (Cat [Bol; Alt (Word "methodology")
              (Alt (plural "method")
                   (Cat [Word "2."; spaces; Word "method"]))]).

(** [r'(?i)^(results?|3\.\s*results?)'] *)
Definition results : pattern :=
  Pattern true
    (Cat [Bol; Alt (plural "result")
                   (Cat [Word "3."; spaces; plural "result"])]).

(** [r'(?i)^(conclusion|conclusions?|4\.\s*conclusion)'] *)
Definition conclusion : pattern :=
  Pattern true
    (Cat [Bol; Alt (Word "conclusion")
              (Alt (plural "conclusion")
                   (Cat [Word "4."; spaces; Word "conclusion"]))]).

(** [r'(?i)^(references?|bibliography)'] *)
Definition references : pattern :=
  Pattern true (Cat [Bol; Alt (plural "reference") (Word "bibliography")]).

(** [r'^\d+\.?\s+[A-Z]'] *)
Definition section : pattern :=
  Pattern false (Cat [Bol; digits1; Opt (Lit "."); spaces1; upper_AZ]).

(** [r'^\d+\.'], in [_extract_abstract] *)
Definition numbered : pattern :=
  Pattern false (Cat [Bol; digits1; Lit "."]).

(** [r'(?i)^(introduction|1\.)'], in [_extract_abstract] *)
Definition intro_or_one : pattern :=
  Pattern true (Cat [Bol; Alt (Word "introduction") (Word "1.")]).

(** [r'(?i)^(keywords?|key\s+words?)'], in [_extract_abstract] *)
Definition keywords : pattern :=
  Pattern true
    (Cat [Bol; Alt (plural "keyword")
                   (Cat [Word "key"; spaces1; plural "word"])]).

End Patterns.

(** [DocumentProcessor.__init__]: the object a constructor call yields. *)
Definition __init__ : DocumentProcessor :=
  {| section_patterns :=
       [ ("title", Patterns.title);
         ("abstract", Patterns.abstract);
         ("introduction", Patterns.introduction);
         ("methodology", Patterns.methodology);
         ("results", Patterns.results);
         ("conclusion", Patterns.conclusion);
         ("references", Patterns.references);
         ("section", Patterns.section) ] |}.

(** [models.DocumentSection] *)
Record DocumentSection : Type :=
  { title : string;
    content : string;
    page_number : Z;
    section_type : string }.

(** Truth values of the objects the processor tests with [if x]. *)
Definition truthy_str (s : string) : bool := negb (Str.is_empty s).

Definition truthy_opt_str (o : option string) : bool :=
  match o with
  | Some s => truthy_str s
  | None => false
  end.

Definition truthy_opt_int (o : option nat) : bool :=
  match o with
  | Some n => negb (Nat.eqb n 0)
  | None => false
  end.

(** *** [_identify_section_type] *)

(** The [for section_type, pattern in ...items()] loop with its [return]. *)
Fixpoint first_match (table : list (string * Re.pattern)) (line : string)
  : option string :=
  match table with
  | [] => None
  | (section_type, pattern) :: rest =>
      if Re.search pattern line then Some section_type
      else first_match rest line
  end.

Definition _identify_section_type (line : string) : Py (option string) :=
  table <- items ;;
  ret (first_match table line).

(** *** [_extract_title] *)

Definition title_stop_words : list string :=
  ["abstract"; "introduction"; "page"; "doi"].

(** The [for line in lines[:10]] loop; [Some] is its [return line]. *)
Fixpoint title_scan (lines : list string) : option string :=
  match lines with
  | [] => None
  | line0 :: rest =>
      let line := Str.strip line0 in
      if (Nat.ltb 10 (String.length line)
          && Nat.ltb (String.length line) 200)%bool
      then
        if negb (existsb (fun word => Str.contains word (Str.lower line))
                         title_stop_words)
        then Some line
        else title_scan rest
      else title_scan rest
  end.

Definition _extract_title (text : string) : Py string :=
  let lines := Str.split_lines text in
  match title_scan (firstn 10 lines) with
  | Some line => ret line
  | None => ret "Untitled Document"
  end.

(** *** [_extract_abstract] *)

(** The test of the [elif]: one of the three end-of-abstract patterns. *)
Definition abstract_end_rule (line : string) : bool :=
  (Re.search Patterns.numbered line
   || Re.search Patterns.intro_or_one line
   || Re.search Patterns.keywords line)%bool.

(** The [for i, line in enumerate(lines)] loop.  It returns the values of
    [abstract_start] and [abstract_end] after the loop; the second is set
    only by the [break]. *)
Fixpoint abstract_scan (lines : list string) (i : nat)
         (abstract_start : option nat) : Py (option nat * option nat) :=
  match lines with
  | [] => ret (abstract_start, None)
  | line :: rest =>
      p <- getitem "abstract" ;;
      if Re.search p line
      then abstract_scan rest (S i) (Some (i + 1))
      else if (truthy_opt_int abstract_start && abstract_end_rule line)%bool
           then ret (abstract_start, Some i)
           else abstract_scan rest (S i) abstract_start
  end.

Definition _extract_abstract (text : string) : Py (option string) :=
  let lines := Str.split_lines text in
  r <- abstract_scan lines 0 None ;;
  let abstract_start := fst r in
  let abstract_end := snd r in
  match abstract_start with
  | Some start =>
      if truthy_opt_int abstract_start
      then
        let abstract_lines :=
          match abstract_end with
          | Some stop =>
              if truthy_opt_int abstract_end
              then Str.slice lines start stop
              else Str.slice lines start (start + 10)
          | None => Str.slice lines start (start + 10)
          end in
        let abstract_text := Str.strip (Str.join_spaces abstract_lines) in
        if Nat.ltb 50 (String.length abstract_text)
        then ret (Some abstract_text)
        else ret None
      else ret None
  | None => ret None
  end.

(** *** [_extract_sections] *)

(** The local variables of [_extract_sections] that the loop updates. *)
Record locals : Type :=
  { sections : list DocumentSection;
    current_section : option string;
    current_content : list string }.

(** The record appended when a section is saved. *)
Definition saved (current : string) (current_content : list string)
           (page_number : Z) : DocumentSection :=
  {| title := current;
     content := Str.strip (Str.join_spaces current_content);
     page_number := page_number;
     section_type := "section" |}.

(** [if section_type and section_type != 'section']: the type when the test
    holds. *)
Definition header_type (section_type : option string) : option string :=
  match section_type with
  | Some ty =>
      if (truthy_str ty && negb (String.eqb ty "section"))%bool
      then Some ty else None
  | None => None
  end.

(** One round of [for line in lines]. *)
Definition section_step (page_number : Z) (st : locals) (line0 : string)
  : Py locals :=
  let line := Str.strip line0 in
  if negb (truthy_str line) then ret st
  else
    section_type <- _identify_section_type line ;;
    match header_type section_type with
    | Some ty =>
        let sections1 :=
          match current_section st with
          | Some current =>
              if truthy_str current
              then sections st
                     ++ [saved current (current_content st) page_number]
              else sections st
          | None => sections st
          end in
        ret {| sections :=
                 sections1 ++ [ {| title := line;
                                   content := "";
                                   page_number := page_number;
                                   section_type := ty |} ];
               current_section := Some line;
               current_content := [] |}
    | None =>
        if truthy_opt_str (current_section st)
        then ret {| sections := sections st;
                    current_section := current_section st;
                    current_content := current_content st ++ [line] |}
        else
          let current_section1 :=
            if negb (truthy_opt_str (current_section st))
            then Some ("Page " ++ Str.of_int page_number ++ " Content")%string
            else current_section st in
          ret {| sections := sections st;
                 current_section := current_section1;
                 current_content := current_content st ++ [line] |}
    end.

Fixpoint section_loop (page_number : Z) (lines : list string) (st : locals)
  : Py locals :=
  match lines with
  | [] => ret st
  | line :: rest =>
      st' <- section_step page_number st line ;;
      section_loop page_number rest st'
  end.

(** The [if current_section and current_content] after the loop. *)
Definition save_last (page_number : Z) (st : locals) : list DocumentSection :=
  match current_section st, current_content st with
  | Some current, _ :: _ =>
      if truthy_str current
      then sections st ++ [saved current (current_content st) page_number]
      else sections st
  | _, _ => sections st
  end.

Definition _extract_sections (text : string) (page_number : Z)
  : Py (list DocumentSection) :=
  let lines := Str.split_lines text in
  st <- section_loop page_number lines
          {| sections := []; current_section := None; current_content := [] |} ;;
  ret (save_last page_number st).

(** A call on a freshly constructed processor returns [v] and leaves the
    object as it was. *)
Definition returns {A : Type} (m : Py A) (v : A) : Prop :=
  m __init__ = (inr v, __init__).

(** * Vocabulary of the properties *)

(** ** Strings *)

Definition line_feed : string := String Char.newline "".

(** A line is blank when all its characters are white space. *)
Fixpoint all_space (s : string) : bool :=
  match s with
  | EmptyString => true
  | String c s' => (Char.is_space c && all_space s')%bool
  end.

Definition head_ok (s : string) : Prop :=
  forall c t, s = String c t -> Char.is_space c = false.

Definition last_ok (s : string) : Prop :=
  forall t c, s = (t ++ String c "")%string -> Char.is_space c = false.

(** No white space at either end. *)
Definition trimmed (s : string) : Prop := head_ok s /\ last_ok s.

(** [w] occurs in [s] when letter case is ignored. *)
Definition occurs_ignoring_case (w s : string) : Prop :=
  exists pre mid post,
    s = (pre ++ mid ++ post)%string /\ Str.lower mid = Str.lower w.

(** [s] begins with [w] when letter case is ignored. *)
Definition begins_ignoring_case (w s : string) : Prop :=
  exists p rest, s = (p ++ rest)%string /\ Str.lower p = Str.lower w.

(** None of the characters [.], [!], [?] occurs in the line. *)
Definition no_terminal_punctuation (line : string) : Prop :=
  forall x, In x (list_ascii_of_string line) ->
            x <> "."%char /\ x <> "!"%char /\ x <> "?"%char.

(** ** The matcher *)

(** The rounds of [Star] inside [Re.exec], with the number of rounds left
    as an argument. *)
Definition star_loop (ic : bool) (r : Re.regex) (k : bool -> string -> bool)
  : nat -> bool -> string -> bool :=
  fix loop (n : nat) (b : bool) (t : string) {struct n} : bool :=
    match n with
    | O => k b t
    | S n' =>
        (Re.exec ic r b t
           (fun b' t' =>
              if Nat.ltb (String.length t') (String.length t)
              then loop n' b' t' else false)
         || k b t)%bool
    end.

(** ** Calls *)

(** A call on the object [self] returns [v] and leaves [self] as it was. *)
Definition succeeds {A : Type} (m : Py A) (self : DocumentProcessor) (v : A)
  : Prop := m self = (inr v, self).

(** The two calls of [_extract_sections] one after the other, on one object. *)
Definition segment_twice (text : string) (pn : Z)
  : Py (list DocumentSection * list DocumentSection) :=
  first <- _extract_sections text pn ;;
  second <- _extract_sections text pn ;;
  ret (first, second).

(** ** Classification *)

(** The order in which the specification lists the classification rules. *)
Definition priority : list string :=
  ["title"; "abstract"; "introduction"; "methodology"; "results";
   "conclusion"; "references"; "section"].

(** The rule that the table of [self] holds under [name] matches [line]. *)
Definition rule_matches (self : DocumentProcessor) (name line : string) : Prop :=
  exists p, dict_get (section_patterns self) name = Some p
            /\ Re.search p line = true.

(** The header type of a stripped line, if it opens a section. *)
Definition classify (self : DocumentProcessor) (line : string) : option string :=
  header_type (first_match (section_patterns self) line).

(** ** Sections of a page *)

(** The locals after one round of the loop of [_extract_sections]. *)
Definition step (self : DocumentProcessor) (page_number : Z) (st : locals)
           (line0 : string) : locals :=
  match fst (section_step page_number st line0 self) with
  | inr st' => st'
  | inl _ => st
  end.

(** The locals on entry to the loop. *)
Definition fresh_locals : locals :=
  {| sections := []; current_section := None; current_content := [] |}.

(** The record saved for the section that a header closes, if one is open. *)
Definition closing (pn : Z) (st : locals) : list DocumentSection :=
  match current_section st with
  | Some current =>
      if truthy_str current then [saved current (current_content st) pn]
      else []
  | None => []
  end.

(** The record a header line emits at once. *)
Definition opening (pn : Z) (line ty : string) : DocumentSection :=
  {| title := line; content := ""; page_number := pn; section_type := ty |}.

Definition page_title (pn : Z) : string :=
  ("Page " ++ Str.of_int pn ++ " Content")%string.

(** The stripped non-blank lines of a run of lines, as the loop buffers
    them. *)
Definition body_lines (body : list string) : list string :=
  map Str.strip (filter (fun l => negb (all_space l)) body).




(** What every emitted record satisfies. *)
Definition record_ok (pn : Z) (r : DocumentSection) : Prop :=
  page_number r = pn /\ trimmed (title r) /\ trimmed (content r).

Definition locals_ok (pn : Z) (st : locals) : Prop :=
  Forall (record_ok pn) (sections st)
  /\ forall cur, current_section st = Some cur -> trimmed cur.

(** ** The title *)

(** A line that [_extract_title] accepts: stripped, it is longer than 10 and
    shorter than 200 characters and holds none of the four stop words. *)
Definition title_candidate (line : string) : Prop :=
  10 < String.length (Str.strip line) < 200
  /\ forall w, In w title_stop_words ->
               ~ occurs_ignoring_case w (Str.strip line).

(** The test of the loop of [_extract_title]. *)
Definition title_test (line : string) : bool :=
  (Nat.ltb 10 (String.length (Str.strip line))
   && Nat.ltb (String.length (Str.strip line)) 200
   && negb (existsb (fun word => Str.contains word (Str.lower (Str.strip line)))
                    title_stop_words))%bool.

(** ** The abstract *)

(** The test of the [if] in the loop of [_extract_abstract]: the line matches
    the 'abstract' rule of the table. *)
Definition is_heading (line : string) : bool :=
  Re.search Patterns.abstract line.

(** Line number [i] passes, respectively fails, the test [p]. *)
Definition line_is (lines : list string) (i : nat) (p : string -> bool) : Prop :=
  exists l, nth_error lines i = Some l /\ p l = true.

Definition line_is_not (lines : list string) (i : nat) (p : string -> bool)
  : Prop :=
  forall l, nth_error lines i = Some l -> p l = false.

(** [abstract_start] holds a line number. *)
Definition started (abstract_start : option nat) : Prop :=
  truthy_opt_int abstract_start = true.

(** The first characters of a line that the 'abstract' rule, respectively
    one of the three end rules, can match. *)
Definition heading_initial (c : ascii) : bool :=
  (Re.lit_eq true "a" c || Re.lit_eq true "s" c)%bool.

Definition end_initial (c : ascii) : bool :=
  (Char.is_digit c || Re.lit_eq true "i" c || Re.lit_eq true "1" c
   || Re.lit_eq true "k" c)%bool.

(** [abstract_start] and [abstract_end] after the loop of
    [_extract_abstract], on a freshly constructed processor. *)
Definition scan (lines : list string) (i : nat) (abstract_start : option nat)
  : option nat * option nat :=
  match fst (abstract_scan lines i abstract_start __init__) with
  | inr r => r
  | inl _ => (None, None)
  end.

(** The lines [a..b) joined and stripped, kept when longer than 50. *)
Definition abstract_of_range (lines : list string) (a b : nat) : option string :=
  let abstract_text := Str.strip (Str.join_spaces (Str.slice lines a b)) in
  if Nat.ltb 50 (String.length abstract_text) then Some abstract_text else None.

(** The start of the abstract as the specification words it: one past the
    first line that matches the 'abstract' rule; the end is the first later
    line that matches an end rule, and ten lines are taken when there is no
    such line. *)
Definition starts_after_first_heading (text : string) : Prop :=
  let lines := Str.split_lines text in
  ((forall i, line_is_not lines i is_heading) ->
   returns (_extract_abstract text) None)
  /\ (forall first stop,
        line_is lines first is_heading ->
        (forall j, j < first -> line_is_not lines j is_heading) ->
        first < stop ->
        line_is lines stop abstract_end_rule ->
        (forall j, first < j < stop -> line_is_not lines j abstract_end_rule) ->
        returns (_extract_abstract text)
                (abstract_of_range lines (first + 1) stop))
  /\ (forall first,
        line_is lines first is_heading ->
        (forall j, j < first -> line_is_not lines j is_heading) ->
        (forall j, first < j -> line_is_not lines j abstract_end_rule) ->
        returns (_extract_abstract text)
                (abstract_of_range lines (first + 1) (first + 1 + 10))).

(** A first page on which a line of the abstract begins with "Summary". *)
Definition page_with_two_headings : string :=
  ("Abstract" ++ line_feed
   ++ "Summary of the approach" ++ line_feed
   ++ "This paper examines widget durability across fifty trials in controlled settings."
   ++ line_feed
   ++ "Keywords: widgets, durability" ++ line_feed
   ++ "1. Introduction")%string.

(** The first page of the example of the specification. *)
Definition page_with_one_heading : string :=
  ("Abstract" ++ line_feed
   ++ "This paper examines widget durability across fifty trials in controlled settings."
   ++ line_feed
   ++ "Keywords: widgets, durability" ++ line_feed
   ++ "1. Introduction")%string.

From Stdlib Require Import Sorted DecimalZ DecimalPos.

(** * Further vocabulary: what a page yields *)

(** The types a record that opens a section can carry. *)
Definition named_types : list string :=
  ["title"; "abstract"; "introduction"; "methodology"; "results";
   "conclusion"; "references"].

(** The lines of a page as the loop of [_extract_sections] sees them:
    stripped, the blank ones skipped. *)
Definition visible_lines (lines : list string) : list string :=
  filter (fun l => negb (Str.is_empty l)) (map Str.strip lines).

Definition is_header (line : string) : bool :=
  match classify __init__ line with
  | Some _ => true
  | None => false
  end.

(** The visible lines that are no headers, in order. *)
Definition text_lines (lines : list string) : list string :=
  filter (fun l => negb (is_header l)) (visible_lines lines).

(** The record that a visible line emits at once, if it is a header. *)
Definition opening_of_line (pn : Z) (line : string) : list DocumentSection :=
  match classify __init__ line with
  | Some ty => [opening pn line ty]
  | None => []
  end.

(** The records of a result that open a section, and the contents that are
    not empty. *)
Definition openings_of (out : list DocumentSection) : list DocumentSection :=
  filter (fun r => negb (String.eqb (section_type r) "section")) out.

Definition nonempty_contents (out : list DocumentSection) : list string :=
  filter (fun c => negb (Str.is_empty c)) (map content out).

(** A stripped line with text. *)
Definition good_line (l : string) : Prop := trimmed l /\ l <> "".

(** What holds of every record of a page: a title with text, and either the
    opening of a section (no content, a named type) or a saved section. *)
Definition record_shape (r : DocumentSection) : Prop :=
  title r <> ""
  /\ ((content r = "" /\ In (section_type r) named_types)
      \/ section_type r = "section").

(** What the loop of [_extract_sections] keeps true after the visible lines
    [pre]: the contents with text saved so far are the joins of groups of
    lines which, with the buffer, make up the lines of [pre] that are no
    headers; the openings are those of the headers of [pre]. *)
Definition conserved (pn : Z) (st : locals) (pre : list string) : Prop :=
  (exists groups,
      Forall (fun g => g <> []) groups
      /\ nonempty_contents (sections st) = map Str.join_spaces groups
      /\ List.concat groups ++ current_content st
         = filter (fun l => negb (is_header l)) pre)
  /\ openings_of (sections st) = flat_map (opening_of_line pn) pre
  /\ Forall good_line (current_content st)
  /\ (current_content st <> [] ->
      truthy_opt_str (current_section st) = true).

(** * [process_document] and the code that consumes its result

    The PDF library is outside the program: [fitz.open(file_path)] is taken
    as its outcome, either the message of the exception it raised or the
    document as the list of the texts [page.get_text()] of its pages; the two
    readings of [datetime.now()] are arguments. *)

(** [s.replace(old, new)] for a non-empty [old]: the occurrences of [old]
    are replaced from left to right, without overlap; [skip] counts the
    characters of an occurrence still to be dropped. *)
Fixpoint replace_from (old new : string) (skip : nat) (s : string) : string :=
  match s with
  | EmptyString => EmptyString
  | String c s' =>
      match skip with
      | S k => replace_from old new k s'
      | O =>
          if Str.starts_with old s
          then (new ++ replace_from old new (String.length old - 1) s')%string
          else String c (replace_from old new 0 s')
      end
  end.

Definition replace (old new s : string) : string := replace_from old new 0 s.

(** The values held in the metadata dictionaries. *)
Inductive value : Type :=
| VInt (n : Z)
| VBool (b : bool)
| VStr (s : string).

(** [models.DocumentInfo] *)
Module Info.

Record DocumentInfo (datetime : Type) : Type :=
  { file_id : string;
    filename : string;
    file_path : string;
    title : string;
    abstract : option string;
    sections : list DocumentSection;
    page_count : Z;
    upload_time : datetime;
    metadata : list (string * value) }.

Arguments file_id {datetime} _.
Arguments filename {datetime} _.
Arguments file_path {datetime} _.
Arguments title {datetime} _.
Arguments abstract {datetime} _.
Arguments sections {datetime} _.
Arguments page_count {datetime} _.
Arguments upload_time {datetime} _.
Arguments metadata {datetime} _.

End Info.

(** The exception that [process_document] raises in its [except] clause. *)
Inductive error : Type :=
| Exception (message : string).

(** [str(e)]: for a [KeyError] the [repr] of the key, here of a key without
    quotes, backslashes or control characters, as the keys of the program
    are. *)
Definition str_of_exn (e : exn) : string :=
  match e with
  | KeyError key => ("'" ++ key ++ "'")%string
  end.

(** The variables of [process_document] that the loop over the pages
    updates. *)
Module Proc.

Record vars : Type :=
  { sections : list DocumentSection;
    title : string;
    abstract : option string }.

End Proc.

(** One round of [for page_num in range(page_count)], on the text of the
    page. *)
Definition page_round (st : Proc.vars) (page_num : nat) (text : string)
  : Py Proc.vars :=
  title1 <- (if Nat.eqb page_num 0 then _extract_title text
             else ret (Proc.title st)) ;;
  abstract1 <- (if (Nat.eqb page_num 0
                    && negb (truthy_opt_str (Proc.abstract st)))%bool
                then _extract_abstract text
                else ret (Proc.abstract st)) ;;
  page_sections <- _extract_sections text (Z.of_nat page_num + 1) ;;
  ret {| Proc.sections := Proc.sections st ++ page_sections;
         Proc.title := title1;
         Proc.abstract := abstract1 |}.

Fixpoint page_loop (pages : list string) (page_num : nat) (st : Proc.vars)
  : Py Proc.vars :=
  match pages with
  | [] => ret st
  | text :: rest =>
      st' <- page_round st page_num text ;;
      page_loop rest (S page_num) st'
  end.

Definition is_not_None {A : Type} (o : option A) : bool :=
  match o with
  | Some _ => true
  | None => false
  end.

Definition process_document {datetime : Type} (isoformat : datetime -> string)
  (opened : string + list string) (now_upload now_metadata : datetime)
  (file_path filename : string)
  : DocumentProcessor -> (error + Info.DocumentInfo datetime) * DocumentProcessor :=
  fun self =>
    match opened with
    | inl message =>
        (inl (Exception ("Error processing document: " ++ message)%string), self)
    | inr doc =>
        let page_count := Z.of_nat (List.length doc) in
        match page_loop doc 0
                {| Proc.sections := [];
                   Proc.title := replace ".pdf" "" filename;
                   Proc.abstract := None |} self with
        | (inr st, self') =>
            (inr {| Info.file_id := "";
                    Info.filename := filename;
                    Info.file_path := file_path;
                    Info.title := Proc.title st;
                    Info.abstract := Proc.abstract st;
                    Info.sections := Proc.sections st;
                    Info.page_count := page_count;
                    Info.upload_time := now_upload;
                    Info.metadata :=
                      [ ("total_sections",
                         VInt (Z.of_nat (List.length (Proc.sections st))));
                        ("has_abstract",
                         VBool (is_not_None (Proc.abstract st)));
                        ("processing_time", VStr (isoformat now_metadata)) ] |},
             self')
        | (inl e, self') =>
            (inl (Exception ("Error processing document: "
                             ++ str_of_exn e)%string), self')
        end
    end.

(** [main.upload_documents], lines 84-85: the caller sets the identifier and
    the path of the document it got. *)
Definition assign_file {datetime : Type} (doc_info : Info.DocumentInfo datetime)
  (file_id file_path : string) : Info.DocumentInfo datetime :=
  {| Info.file_id := file_id;
     Info.filename := Info.filename doc_info;
     Info.file_path := file_path;
     Info.title := Info.title doc_info;
     Info.abstract := Info.abstract doc_info;
     Info.sections := Info.sections doc_info;
     Info.page_count := Info.page_count doc_info;
     Info.upload_time := Info.upload_time doc_info;
     Info.metadata := Info.metadata doc_info |}.

(** ** [RAGSystem.add_document]: the lists handed to the vector store

    The embedding model and the collection are outside the program; what is
    embedded here is the part of [add_document] that builds the three lists
    [documents], [metadatas] and [ids] passed to [collection.add]. *)
Module Batch.

Record lists : Type :=
  { documents : list string;
    metadatas : list (list (string * value));
    ids : list string }.

End Batch.

Definition section_metadata {datetime : Type}
  (doc_info : Info.DocumentInfo datetime) (section : DocumentSection)
  : list (string * value) :=
  [ ("file_id", VStr (Info.file_id doc_info));
    ("filename", VStr (Info.filename doc_info));
    ("title", VStr (Info.title doc_info));
    ("section_title", VStr (title section));
    ("section_type", VStr (section_type section));
    ("page_number", VInt (page_number section));
    ("document_title", VStr (Info.title doc_info)) ].

Definition abstract_metadata {datetime : Type}
  (doc_info : Info.DocumentInfo datetime) : list (string * value) :=
  [ ("file_id", VStr (Info.file_id doc_info));
    ("filename", VStr (Info.filename doc_info));
    ("title", VStr (Info.title doc_info));
    ("section_title", VStr "Abstract");
    ("section_type", VStr "abstract");
    ("page_number", VInt 1);
    ("document_title", VStr (Info.title doc_info)) ].

Definition section_id (file_id : string) (i : nat) : string :=
  (file_id ++ "_section_" ++ Str.of_int (Z.of_nat i))%string.

(** The [for i, section in enumerate(doc_info.sections)] loop. *)
Fixpoint add_sections {datetime : Type} (doc_info : Info.DocumentInfo datetime)
  (sections : list DocumentSection) (i : nat) (b : Batch.lists) : Batch.lists :=
  match sections with
  | [] => b
  | section :: rest =>
      if truthy_str (Str.strip (content section))
      then
        let doc_id := section_id (Info.file_id doc_info) i in
        add_sections doc_info rest (S i)
          {| Batch.documents := Batch.documents b ++ [content section];
             Batch.metadatas :=
               Batch.metadatas b ++ [section_metadata doc_info section];
             Batch.ids := Batch.ids b ++ [doc_id] |}
      else add_sections doc_info rest (S i) b
  end.

Definition add_document_batch {datetime : Type}
  (doc_info : Info.DocumentInfo datetime) : Batch.lists :=
  let b := add_sections doc_info (Info.sections doc_info) 0
             {| Batch.documents := []; Batch.metadatas := []; Batch.ids := [] |} in
  match Info.abstract doc_info with
  | Some abstract =>
      if truthy_str abstract
      then
        let abstract_id := (Info.file_id doc_info ++ "_abstract")%string in
        {| Batch.documents := Batch.documents b ++ [abstract];
           Batch.metadatas := Batch.metadatas b ++ [abstract_metadata doc_info];
           Batch.ids := Batch.ids b ++ [abstract_id] |}
      else b
  | None => b
  end.

(** The value a metadata dictionary holds under a key. *)
Fixpoint meta_get (m : list (string * value)) (key : string) : option value :=
  match m with
  | [] => None
  | (k, v) :: m' => if String.eqb k key then Some v else meta_get m' key
  end.

(** A line that is empty or begins with white space. *)
Definition indented (line : string) : Prop :=
  match line with
  | EmptyString => True
  | String c _ => Char.is_space c = true
  end.

(** The number of header lines of a page. *)
Definition header_count (lines : list string) : nat :=
  List.length (filter is_header (visible_lines lines)).

(** * Facts about the string operations *)

Module StrFacts.
Import Str.

Lemma is_empty_true (s : string) : is_empty s = true <-> s = "".
Proof. destruct s; simpl; split; congruence. Qed.

Lemma lstrip_all_space (s : string) : all_space s = true -> lstrip s = "".
Proof.
  induction s as [|c s IH]; simpl; auto.
  intros H. apply andb_true_iff in H as [Hc Hs]. rewrite Hc. auto.
Qed.

Lemma lstrip_head_ok (s : string) : head_ok (lstrip s).
Proof.
  induction s as [|c s IH]; simpl.
  - intros c t H; discriminate.
  - destruct (Char.is_space c) eqn:E; auto.
    intros c' t H. inversion H; subst; auto.
Qed.

Lemma lstrip_fixed (s : string) : head_ok s -> lstrip s = s.
Proof.
  destruct s as [|c s]; simpl; auto.
  intros H. rewrite (H c s eq_refl). reflexivity.
Qed.

Lemma rstrip_empty_iff (s : string) : rstrip s = "" <-> all_space s = true.
Proof.
  induction s as [|c s IH]; simpl.
  - split; auto.
  - destruct (Char.is_space c) eqn:Ec; simpl.
    + destruct (rstrip s) eqn:Er; simpl.
      * split; intros _; auto. apply IH; reflexivity.
      * split; intros H; try discriminate.
        apply IH in H. discriminate.
    + split; intros H; discriminate.
Qed.

Lemma rstrip_head_ok (s : string) : head_ok s -> head_ok (rstrip s).
Proof.
  destruct s as [|c s]; simpl; auto.
  intros H. rewrite (H c s eq_refl). simpl.
  intros c' t E. inversion E; subst. apply (H c' s eq_refl).
Qed.

Lemma rstrip_idem (s : string) : rstrip (rstrip s) = rstrip s.
Proof.
  induction s as [|c s IH]; simpl; auto.
  destruct (Char.is_space c && is_empty (rstrip s))%bool eqn:E; simpl; auto.
  rewrite IH, E. reflexivity.
Qed.

Lemma rstrip_last_ok (s : string) : last_ok (rstrip s).
Proof.
  induction s as [|c s IH]; simpl.
  - intros t c H. destruct t; discriminate.
  - destruct (Char.is_space c && is_empty (rstrip s))%bool eqn:E.
    + intros t c' H. destruct t; discriminate.
    + intros t c' H. destruct t as [|d t]; simpl in H.
      * injection H as Hc Hr. subst c'. rewrite Hr in E. simpl in E.
        rewrite andb_true_r in E. exact E.
      * injection H as Hc Hr. eapply IH; eauto.
Qed.

Lemma strip_trimmed (s : string) : trimmed (strip s).
Proof.
  split.
  - apply rstrip_head_ok, lstrip_head_ok.
  - apply rstrip_last_ok.
Qed.

Lemma strip_idem (s : string) : strip (strip s) = strip s.
Proof.
  unfold strip.
  rewrite (lstrip_fixed _ (rstrip_head_ok _ (lstrip_head_ok s))).
  apply rstrip_idem.
Qed.

Lemma strip_empty_iff (s : string) : strip s = "" <-> all_space s = true.
Proof.
  unfold strip. rewrite rstrip_empty_iff. split.
  - induction s as [|c s IH]; simpl; auto.
    destruct (Char.is_space c) eqn:E; simpl; auto.
    rewrite E. simpl. discriminate.
  - intros H. rewrite (lstrip_all_space _ H). reflexivity.
Qed.

Lemma join_one (s : string) : join_spaces [s] = s.
Proof. reflexivity. Qed.

Lemma split_lines_nonempty (s : string) : split_lines s <> [].
Proof.
  induction s as [|c s IH]; simpl; try discriminate.
  destruct (Ascii.eqb c Char.newline); try discriminate.
  destruct (split_lines s); discriminate.
Qed.

Lemma append_assoc (a b c : string) :
  ((a ++ b) ++ c)%string = (a ++ (b ++ c))%string.
Proof. induction a as [|x a IH]; simpl; congruence. Qed.

Lemma append_last_inj (s t : string) (c d : ascii) :
  (s ++ String c "")%string = (t ++ String d "")%string -> c = d.
Proof.
  revert t. induction s as [|x s IH]; intros [|y t] H; simpl in H.
  - congruence.
  - injection H as _ H. destruct t; discriminate.
  - injection H as _ H. destruct s; discriminate.
  - injection H as _ H. eauto.
Qed.

Lemma trimmed_empty : trimmed "".
Proof.
  split; intros a b H; try discriminate. destruct a; discriminate.
Qed.

Lemma trimmed_between (c d : ascii) (s : string) :
  Char.is_space c = false -> Char.is_space d = false ->
  trimmed (String c (s ++ String d "")).
Proof.
  intros Hc Hd. split.
  - intros x t H. injection H as -> _. exact Hc.
  - intros t x H. change (String c (s ++ String d ""))
      with (String c s ++ String d "")%string in H.
    apply append_last_inj in H. subst. exact Hd.
Qed.

End StrFacts.

(** * Facts about the matcher *)

Module ReFacts.
Import Re.

Lemma exec_star ic r b s k :
  exec ic (Star r) b s k = star_loop ic r k (String.length s) b s.
Proof. reflexivity. Qed.

(** [exec] calls its continuation on suffixes no longer than the subject. *)
Lemma exec_suffix ic r : forall b s k1 k2,
  (forall b' t', String.length t' <= String.length s -> k1 b' t' = k2 b' t') ->
  exec ic r b s k1 = exec ic r b s k2.
Proof.
  induction r as [| | |c|cs|cs|r1 IH1 r2 IH2|r1 IH1 r2 IH2|r IH|r IH];
    intros b s k1 k2 H; cbn [exec].
  - rewrite H; auto.
  - rewrite H; auto.
  - apply H; auto.
  - destruct s as [|x s]; auto. rewrite H; simpl; auto.
  - destruct s as [|x s]; auto. rewrite H; simpl; auto.
  - destruct s as [|x s]; auto. rewrite H; simpl; auto.
  - apply IH1. intros b' t' Ht. apply IH2. intros b'' t'' Ht'.
    apply H. lia.
  - rewrite (IH1 b s k1 k2 H), (IH2 b s k1 k2 H). reflexivity.
  - rewrite (IH b s k1 k2 H), H; auto.
  - change (star_loop ic r k1 (String.length s) b s
            = star_loop ic r k2 (String.length s) b s).
    assert (G : forall n b t, String.length t <= String.length s ->
                  star_loop ic r k1 n b t = star_loop ic r k2 n b t).
    { induction n as [|n IHn]; intros b' t Ht; cbn [star_loop].
      - apply H. exact Ht.
      - rewrite (H b' t Ht). f_equal. apply IH.
        intros b'' t' Ht'.
        destruct (Nat.ltb_spec (String.length t') (String.length t)); auto.
        apply IHn. lia. }
    apply G. auto.
Qed.

Lemma exec_false ic r b s : exec ic r b s (fun _ _ => false) = false.
Proof.
  revert b s.
  induction r as [| | |c|cs|cs|r1 IH1 r2 IH2|r1 IH1 r2 IH2|r IH|r IH];
    intros b s; cbn [exec].
  - apply andb_false_r.
  - apply andb_false_r.
  - reflexivity.
  - destruct s; auto using andb_false_r.
  - destruct s; auto using andb_false_r.
  - destruct s; auto using andb_false_r.
  - rewrite (exec_suffix ic r1 b s _ (fun _ _ => false)); auto.
  - rewrite IH1, IH2. reflexivity.
  - rewrite IH. reflexivity.
  - change (star_loop ic r (fun _ _ => false) (String.length s) b s = false).
    generalize (String.length s). intros n. revert b s.
    induction n as [|n IHn]; intros b s; cbn [star_loop]; auto.
    rewrite orb_false_r.
    rewrite (exec_suffix ic r b s _ (fun _ _ => false)); auto.
    intros b' t' _. rewrite IHn. destruct (Nat.ltb _ _); reflexivity.
Qed.

(** Rounds beyond the length of the subject change nothing. *)
Lemma star_loop_fuel ic r k : forall n m b t,
  String.length t <= n -> String.length t <= m ->
  star_loop ic r k n b t = star_loop ic r k m b t.
Proof.
  assert (Z0 : forall m b, star_loop ic r k m b "" = k b "").
  { intros [|m] b; cbn [star_loop]; auto.
    rewrite (exec_suffix ic r b "" _ (fun _ _ => false)).
    - rewrite exec_false. reflexivity.
    - intros b' t' _. simpl. reflexivity. }
  induction n as [|n IH]; intros m b t Hn Hm.
  - destruct t; simpl in Hn; [|lia]. rewrite !Z0. reflexivity.
  - destruct m as [|m].
    + destruct t; simpl in Hm; [|lia]. rewrite !Z0. reflexivity.
    + cbn [star_loop]. f_equal. apply exec_suffix.
      intros b' t' Ht.
      destruct (Nat.ltb_spec (String.length t') (String.length t)); auto.
      apply IH; lia.
Qed.

(** [Star] satisfies its equation: one round that consumes input, then
    [Star] again, or no round at all. *)
Lemma exec_star_unfold ic r b s k :
  exec ic (Star r) b s k
  = (exec ic r b s
       (fun b' t' =>
          if Nat.ltb (String.length t') (String.length s)
          then exec ic (Star r) b' t' k else false)
     || k b s)%bool.
Proof.
  rewrite exec_star. destruct s as [|x s].
  - cbn [String.length star_loop].
    rewrite (exec_suffix ic r b "" _ (fun _ _ => false)).
    + rewrite exec_false. reflexivity.
    + intros b' t' _. reflexivity.
  - cbn [String.length star_loop]. f_equal. apply exec_suffix.
    intros b' t' Ht. cbn [String.length].
    destruct (Nat.ltb_spec (String.length t') (S (String.length s))); auto.
    rewrite exec_star. apply star_loop_fuel; lia.
Qed.

(** A run of literals under [(?i)] matches a prefix that is equal to it up
    to letter case. *)
Lemma exec_word_ignorecase w : forall b s k,
  exec true (Word w) b s k = true ->
  exists p rest, s = (p ++ rest)%string /\ Str.lower p = Str.lower w.
Proof.
  induction w as [|c w IH]; intros b s k H; cbn [Word exec] in H.
  - exists "", s. auto.
  - destruct s as [|x s]; [discriminate|].
    apply andb_true_iff in H as [Hx H].
    apply IH in H as (p & rest & -> & Hp).
    exists (String x p), rest. simpl. rewrite Hp.
    unfold lit_eq in Hx. apply Ascii.eqb_eq in Hx. rewrite Hx. auto.
Qed.

Lemma exec_word_ignorecase_intro w : forall b p rest k,
  Str.lower p = Str.lower w ->
  (forall b', k b' rest = true) ->
  exec true (Word w) b (p ++ rest) k = true.
Proof.
  induction w as [|c w IH]; intros b p rest k Hp Hk; cbn [Word exec].
  - destruct p; [|discriminate]. apply Hk.
  - destruct p as [|x p]; [discriminate|]. simpl in Hp.
    injection Hp as Hx Hp. simpl. unfold lit_eq.
    rewrite Hx, Ascii.eqb_refl. simpl. apply IH; auto.
Qed.

End ReFacts.

(** * The methods as functions

    No method writes to [self], and on a table that has the key they look
    up no method raises: each computation is a function of its arguments
    and of the table. *)

Module Run.
Import Str StrFacts.

Lemma succeeds_inj {A : Type} (a b : A) (s s' : DocumentProcessor) :
  (@inr exn A a, s) = (inr b, s') -> a = b.
Proof. intros H. injection H. auto. Qed.

Lemma bind_succeeds {A B : Type} (m : Py A) (f : A -> Py B) self a b :
  succeeds m self a -> succeeds (f a) self b -> succeeds (bind m f) self b.
Proof. unfold succeeds, bind. intros -> ->. reflexivity. Qed.

Lemma identify_run (line : string) (self : DocumentProcessor) :
  succeeds (_identify_section_type line) self
           (first_match (section_patterns self) line).
Proof. reflexivity. Qed.

Lemma section_step_run self pn st line0 :
  succeeds (section_step pn st line0) self (step self pn st line0).
Proof.
  unfold succeeds, step, section_step.
  destruct (negb (truthy_str (strip line0))); [reflexivity|].
  unfold bind. rewrite identify_run.
  destruct (header_type _); [reflexivity|].
  destruct (truthy_opt_str _); reflexivity.
Qed.

Lemma section_loop_run self pn lines : forall st,
  succeeds (section_loop pn lines st) self (fold_left (step self pn) lines st).
Proof.
  induction lines as [|l lines IH]; intros st; simpl.
  - reflexivity.
  - eapply bind_succeeds; [apply section_step_run | apply IH].
Qed.

Lemma extract_sections_run self text pn :
  succeeds (_extract_sections text pn) self
    (save_last pn (fold_left (step self pn) (split_lines text) fresh_locals)).
Proof.
  unfold _extract_sections.
  eapply bind_succeeds; [apply section_loop_run | reflexivity].
Qed.

Lemma step_blank self pn st line0 :
  all_space line0 = true -> step self pn st line0 = st.
Proof.
  intros H. apply strip_empty_iff in H.
  unfold step, section_step. rewrite H. reflexivity.
Qed.

Lemma step_header self pn st line0 ty :
  all_space line0 = false ->
  classify self (strip line0) = Some ty ->
  step self pn st line0 =
    {| sections := sections st ++ closing pn st ++ [opening pn (strip line0) ty];
       current_section := Some (strip line0);
       current_content := [] |}.
Proof.
  intros Hb Hc. unfold step, section_step.
  assert (E : truthy_str (strip line0) = true).
  { unfold truthy_str. destruct (is_empty (strip line0)) eqn:E; auto.
    apply is_empty_true, strip_empty_iff in E. congruence. }
  rewrite E. simpl. unfold bind. rewrite identify_run.
  unfold classify in Hc. rewrite Hc. simpl.
  unfold closing, opening.
  destruct (current_section st) as [cur|]; simpl.
  - destruct (truthy_str cur); simpl.
    + rewrite <- app_assoc. reflexivity.
    + reflexivity.
  - reflexivity.
Qed.

Lemma step_body self pn st line0 :
  all_space line0 = false ->
  classify self (strip line0) = None ->
  step self pn st line0 =
    {| sections := sections st;
       current_section :=
         if truthy_opt_str (current_section st) then current_section st
         else Some (page_title pn);
       current_content := current_content st ++ [strip line0] |}.
Proof.
  intros Hb Hc. unfold step, section_step.
  assert (E : truthy_str (strip line0) = true).
  { unfold truthy_str. destruct (is_empty (strip line0)) eqn:E; auto.
    apply is_empty_true, strip_empty_iff in E. congruence. }
  rewrite E. simpl. unfold bind. rewrite identify_run.
  unfold classify in Hc. rewrite Hc.
  destruct (truthy_opt_str (current_section st)); reflexivity.
Qed.

Lemma fold_blank self pn lines : forall st,
  Forall (fun l => all_space l = true) lines ->
  fold_left (step self pn) lines st = st.
Proof.
  induction lines as [|l lines IH]; intros st H; simpl; auto.
  inversion H; subst. rewrite step_blank by assumption. auto.
Qed.

End Run.

(** * Segmentation of a page *)

Section Segmentation.
Import Str StrFacts Run.

Variable self : DocumentProcessor.
Variable pn : Z.

Lemma page_title_trimmed : trimmed (page_title pn).
Proof.
  unfold page_title.
  replace ("Page " ++ of_int pn ++ " Content")%string
    with (String "P" (("age " ++ of_int pn ++ " Conten") ++ String "t" ""))%string.
  - apply trimmed_between; reflexivity.
  - simpl. rewrite append_assoc. reflexivity.
Qed.

Lemma saved_ok cur body : trimmed cur -> record_ok pn (saved cur body pn).
Proof.
  intros H. unfold record_ok, saved; simpl.
  repeat split; try apply H; apply strip_trimmed.
Qed.

Lemma opening_ok line ty : record_ok pn (opening pn (strip line) ty).
Proof.
  unfold record_ok, opening; simpl.
  repeat split; try apply strip_trimmed; apply trimmed_empty.
Qed.

Lemma closing_ok st : locals_ok pn st -> Forall (record_ok pn) (closing pn st).
Proof.
  intros [_ Hc]. unfold closing.
  destruct (current_section st) as [cur|]; [|constructor].
  destruct (truthy_str cur); constructor; [|constructor].
  apply saved_ok. auto.
Qed.

Lemma step_cases st line0 :
  step self pn st line0 = st
  \/ (exists ty, all_space line0 = false
        /\ classify self (strip line0) = Some ty)
  \/ (all_space line0 = false /\ classify self (strip line0) = None).
Proof.
  destruct (all_space line0) eqn:Hb.
  - left. apply step_blank. exact Hb.
  - right. destruct (classify self (strip line0)) as [ty|] eqn:Hc.
    + left. exists ty. auto.
    + right. auto.
Qed.

Lemma step_ok st line0 : locals_ok pn st -> locals_ok pn (step self pn st line0).
Proof.
  intros Hst.
  destruct (step_cases st line0) as [E | [[ty [Hb Hc]] | [Hb Hc]]].
  - rewrite E. exact Hst.
  - rewrite (step_header _ _ _ _ _ Hb Hc). split; simpl.
    + apply Forall_app. split; [apply Hst|].
      apply Forall_app. split; [apply closing_ok; exact Hst|].
      constructor; [apply opening_ok | constructor].
    + intros cur E. injection E as <-. apply strip_trimmed.
  - rewrite (step_body _ _ _ _ Hb Hc). split; simpl.
    + apply Hst.
    + destruct Hst as [_ Hcur]. intros cur.
      destruct (truthy_opt_str (current_section st)); intros E.
      * auto.
      * injection E as <-. apply page_title_trimmed.
Qed.

Lemma fold_ok lines : forall st,
  locals_ok pn st -> locals_ok pn (fold_left (step self pn) lines st).
Proof.
  induction lines as [|l lines IH]; intros st H; simpl; auto.
  apply IH, step_ok, H.
Qed.

Lemma save_last_ok st : locals_ok pn st -> Forall (record_ok pn) (save_last pn st).
Proof.
  intros [Hs Hc]. unfold save_last.
  destruct (current_section st) as [cur|]; auto.
  destruct (current_content st); auto.
  destruct (truthy_str cur); auto.
  apply Forall_app. split; auto.
  constructor; [|constructor]. apply saved_ok. auto.
Qed.

Lemma fresh_ok : locals_ok pn fresh_locals.
Proof. split; simpl; [constructor | discriminate]. Qed.

End Segmentation.

(** * Headers and the records they emit *)

Section Headers.
Import Str StrFacts Run.

Variable self : DocumentProcessor.
Variable pn : Z.




(** Lines that are blank or are no header only extend the buffer of an
    open section. *)
Lemma fold_body body : forall st,
  truthy_opt_str (current_section st) = true ->
  Forall (fun l => all_space l = true \/ classify self (strip l) = None) body ->
  fold_left (step self pn) body st
  = {| sections := sections st;
       current_section := current_section st;
       current_content := current_content st ++ body_lines body |}.
Proof.
  unfold body_lines.
  induction body as [|l body IH]; intros st Hcur H; simpl.
  - rewrite app_nil_r. destruct st; reflexivity.
  - inversion H as [|? ? Hl Hrest]; subst.
    destruct (all_space l) eqn:Hb; simpl.
    + rewrite step_blank by assumption. apply IH; assumption.
    + destruct Hl as [Hl|Hl]; [discriminate|].
      rewrite (step_body _ _ _ _ Hb Hl), IH; simpl; auto.
      * rewrite Hcur, <- app_assoc. reflexivity.
      * rewrite Hcur. exact Hcur.
Qed.

End Headers.




(** * The claims about [_extract_sections] *)

Section SectionClaims.
Import Str StrFacts Run.

(** C7: a page text all of whose lines are blank (white space only) yields
    the empty list of sections, and no such line changes the section title,
    the content buffer or the records of the loop. *)
Theorem blank_page_has_no_sections (text : string) (pn : Z)
  (Hblank : Forall (fun l => all_space l = true) (split_lines text)) :
  returns (_extract_sections text pn) []
  /\ forall st l, In l (split_lines text) ->
       returns (section_step pn st l) st.
Proof.
  split.
  - unfold returns. rewrite extract_sections_run.
    rewrite fold_blank by assumption. reflexivity.
  - intros st l Hl. unfold returns. rewrite section_step_run.
    rewrite Forall_forall in Hblank.
    rewrite step_blank by auto. reflexivity.
Qed.

Lemma blank_page_has_no_sections_witness :
  returns (_extract_sections ("  " ++ line_feed ++ line_feed ++ " ") 4) [].
Proof.
  apply (blank_page_has_no_sections ("  " ++ line_feed ++ line_feed ++ " ") 4).
  vm_compute. repeat constructor.
Defined.

(** C6: when exactly one line of the page is not blank, and that line,
    stripped, is classified as generic 'section' or not at all, the page
    yields exactly one record: title "Page {pageNumber} Content", type
    'section', content the stripped line. *)
Theorem single_body_line_page (text : string) (pn : Z)
  (before after : list string) (line : string) (ty : option string)
  (Hlines : split_lines text = before ++ line :: after)
  (Hbefore : Forall (fun l => all_space l = true) before)
  (Hafter : Forall (fun l => all_space l = true) after)
  (Hline : all_space line = false)
  (Hclass : returns (_identify_section_type (strip line)) ty)
  (Hty : ty = None \/ ty = Some "section") :
  returns (_extract_sections text pn)
    [ {| title := ("Page " ++ of_int pn ++ " Content")%string;
         content := strip line;
         page_number := pn;
         section_type := "section" |} ].
Proof.
  unfold returns in *. rewrite extract_sections_run, Hlines.
  rewrite fold_left_app, (fold_blank _ _ before _ Hbefore). simpl.
  assert (Hc : classify __init__ (strip line) = None).
  { rewrite identify_run in Hclass. apply succeeds_inj in Hclass.
    unfold classify. rewrite Hclass.
    destruct Hty as [-> | ->]; reflexivity. }
  rewrite (step_body _ _ _ _ Hline Hc), (fold_blank _ _ after _ Hafter).
  unfold save_last, saved, page_title. cbn [current_section current_content
    sections fresh_locals truthy_opt_str app].
  rewrite join_one, strip_idem. reflexivity.
Qed.

Lemma single_body_line_page_witness :
  returns (_extract_sections (" " ++ line_feed ++ " 3 Discussion of it. ") 7)
    [ {| title := "Page 7 Content";
         content := "3 Discussion of it.";
         page_number := 7;
         section_type := "section" |} ].
Proof.
  apply (single_body_line_page
           (" " ++ line_feed ++ " 3 Discussion of it. ") 7
           [" "] [] " 3 Discussion of it. " (Some "section")).
  - reflexivity.
  - repeat constructor.
  - constructor.
  - reflexivity.
  - reflexivity.
  - right. reflexivity.
Defined.

(** C8: on any processor object, two calls of [_extract_sections] with the
    same page text and page number, one after the other, return the same
    list, and the object (its table of patterns) is afterwards as it was. *)
Theorem segmentation_is_repeatable (self : DocumentProcessor)
  (text : string) (pn : Z) :
  exists out,
    segment_twice text pn self = (inr (out, out), self)
    /\ _extract_sections text pn self = (inr out, self).
Proof.
  eexists. split.
  - unfold segment_twice.
    eapply bind_succeeds; [apply extract_sections_run|].
    eapply bind_succeeds; [apply extract_sections_run|]. reflexivity.
  - apply extract_sections_run.
Qed.

(** C10: every record that [_extract_sections] returns carries the page
    number of the call, and its title and its content have no white space
    at either end. *)
Theorem records_carry_page_and_are_trimmed (text : string) (pn : Z) :
  exists out,
    returns (_extract_sections text pn) out
    /\ Forall (fun r => page_number r = pn
                        /\ trimmed (title r) /\ trimmed (content r)) out.
Proof.
  eexists. split.
  - apply extract_sections_run.
  - apply save_last_ok, fold_ok, fresh_ok.
Qed.


(** A header that ends the page with no text after it is not closed: its
    opening record is all that is emitted for it. *)
Lemma last_header_without_text_is_not_closed :
  returns (_extract_sections ("some text" ++ line_feed ++ "Abstract")%string 1)
    [ {| title := "Page 1 Content"; content := "some text";
         page_number := 1; section_type := "section" |};
      {| title := "Abstract"; content := "";
         page_number := 1; section_type := "title" |} ].
Proof. reflexivity. Qed.


End SectionClaims.

(** * Classification of a line *)

Section Classification.
Import Str StrFacts Run.

Lemma first_match_some table line ty :
  first_match table line = Some ty ->
  exists t1 p t2,
    table = t1 ++ (ty, p) :: t2
    /\ Re.search p line = true
    /\ Forall (fun e => Re.search (snd e) line = false) t1.
Proof.
  induction table as [|[k p] table IH]; simpl; [discriminate|].
  destruct (Re.search p line) eqn:E.
  - intros H. injection H as <-. exists [], p, table. auto.
  - intros H. destruct (IH H) as (t1 & q & t2 & -> & Hq & Ht1).
    exists ((k, p) :: t1), q, t2. repeat split; auto.
Qed.

Lemma first_match_none table line :
  first_match table line = None ->
  Forall (fun e => Re.search (snd e) line = false) table.
Proof.
  induction table as [|[k p] table IH]; simpl; [constructor|].
  destruct (Re.search p line) eqn:E; [discriminate|].
  intros H. constructor; auto.
Qed.

Lemma dict_get_split t1 key p t2 :
  ~ In key (map fst t1) ->
  dict_get (t1 ++ (key, p) :: t2) key = Some p.
Proof.
  induction t1 as [|[k v] t1 IH]; simpl; intros H.
  - rewrite String.eqb_refl. reflexivity.
  - destruct (String.eqb_spec k key) as [->|Hne].
    + exfalso. auto.
    + apply IH. intros Hin. apply H. auto.
Qed.

Lemma dict_get_in d key p : dict_get d key = Some p -> In (key, p) d.
Proof.
  induction d as [|[k v] d IH]; simpl; [discriminate|].
  destruct (String.eqb_spec k key) as [->|Hne].
  - intros H. injection H as ->. auto.
  - auto.
Qed.

Lemma dict_get_prefix t1 t2 key p :
  dict_get (t1 ++ t2) key = Some p -> In key (map fst t1) -> In (key, p) t1.
Proof.
  induction t1 as [|[k v] t1 IH]; simpl; intros H Hin; [contradiction|].
  destruct (String.eqb_spec k key) as [->|Hne].
  - injection H as ->. auto.
  - destruct Hin as [E|Hin]; [contradiction|]. auto.
Qed.

Lemma nodup_prefix_fresh (t1 : list (string * Re.pattern)) key p t2 :
  NoDup (map fst (t1 ++ (key, p) :: t2)) -> ~ In key (map fst t1).
Proof.
  rewrite map_app. simpl. intros H Hin.
  apply NoDup_remove_2 in H. apply H, in_or_app. auto.
Qed.

(** The loop of [_identify_section_type] returns the first key, in the order
    of the table, whose pattern matches. *)
Lemma first_match_spec self line :
  NoDup (map fst (section_patterns self)) ->
  match first_match (section_patterns self) line with
  | Some ty =>
      exists earlier later,
        map fst (section_patterns self) = earlier ++ ty :: later
        /\ rule_matches self ty line
        /\ forall t, In t earlier -> ~ rule_matches self t line
  | None =>
      forall t, In t (map fst (section_patterns self)) ->
                ~ rule_matches self t line
  end.
Proof.
  intros Hnd. unfold rule_matches.
  destruct (first_match (section_patterns self) line) as [ty|] eqn:E.
  - destruct (first_match_some _ _ _ E) as (t1 & p & t2 & Et & Hp & Ht1).
    rewrite Et in *. pose proof (nodup_prefix_fresh _ _ _ _ Hnd) as Hfresh.
    exists (map fst t1), (map fst t2). split; [|split].
    + rewrite map_app. reflexivity.
    + exists p. split; auto using dict_get_split.
    + intros t Hin (q & Hq & Hs).
      apply dict_get_prefix in Hq; auto.
      rewrite Forall_forall in Ht1. apply Ht1 in Hq. simpl in Hq. congruence.
  - intros t Hin (q & Hq & Hs).
    apply first_match_none in E. rewrite Forall_forall in E.
    apply dict_get_in in Hq. apply E in Hq. simpl in Hq. congruence.
Qed.

Lemma init_keys : map fst (section_patterns __init__) = priority.
Proof. reflexivity. Qed.

Lemma priority_nodup : NoDup priority.
Proof.
  unfold priority.
  repeat (constructor; [simpl; intuition discriminate|]). constructor.
Qed.

(** C5: the rules are tried in the order title, abstract, introduction,
    methodology, results, conclusion, references, generic section; the
    classification of a line is the first rule in that order that matches,
    and nothing when no rule matches.  The line "2. Methodology", which the
    generic rule matches too, is classified 'methodology'. *)
Theorem classification_follows_priority :
  map fst (section_patterns __init__) = priority
  /\ (forall line, exists r,
        returns (_identify_section_type line) r
        /\ match r with
           | Some ty =>
               exists earlier later,
                 priority = earlier ++ ty :: later
                 /\ rule_matches __init__ ty line
                 /\ forall t, In t earlier -> ~ rule_matches __init__ t line
           | None =>
               forall t, In t priority -> ~ rule_matches __init__ t line
           end)
  /\ returns (_identify_section_type "2. Methodology") (Some "methodology")
  /\ rule_matches __init__ "section" "2. Methodology".
Proof.
  split; [reflexivity|]. split; [|split].
  - intros line. eexists. split; [apply identify_run|].
    rewrite <- init_keys. apply first_match_spec.
    rewrite init_keys. apply priority_nodup.
  - reflexivity.
  - exists Patterns.section. split; reflexivity.
Qed.

End Classification.

(** * The title pattern *)

Section TitlePattern.
Import Str StrFacts Run.

Lemma star_none_of_cons ic cs b x s (k : bool -> string -> bool) :
  Re.exec ic (Re.Star (Re.NoneOf cs)) b (String x s) k
  = ((negb (Re.mem cs x) && Re.exec ic (Re.Star (Re.NoneOf cs)) false s k)
     || k b (String x s))%bool.
Proof.
  cbn [Re.exec String.length]. unfold Nat.ltb at 1.
  rewrite Nat.leb_refl. reflexivity.
Qed.

Lemma star_none_of_all ic cs (k : bool -> string -> bool) :
  (forall b, k b "" = true) ->
  forall s b,
    (forall x, In x (list_ascii_of_string s) -> Re.mem cs x = false) ->
    Re.exec ic (Re.Star (Re.NoneOf cs)) b s k = true.
Proof.
  intros Hk. induction s as [|x s IH]; intros b Hs.
  - simpl. apply Hk.
  - rewrite star_none_of_cons, (Hs x (or_introl eq_refl)).
    rewrite (IH false (fun y Hy => Hs y (or_intror Hy))). reflexivity.
Qed.

Lemma title_pattern_matches (c : ascii) (rest : string) :
  Char.is_upper_AZ c = true ->
  no_terminal_punctuation (String c rest) ->
  Re.search Patterns.title (String c rest) = true.
Proof.
  intros Hc Hp. unfold Re.search. cbn [Re.search_from].
  apply orb_true_iff. left.
  unfold Re.match_here, Patterns.title, Patterns.Cat, Patterns.upper_AZ.
  cbn [Re.ignorecase Re.body fold_right].
  change ((Re.mem (Re.Range "A" "Z") c
           && Re.exec false
                (Re.Star (Re.NoneOf (Re.Chars ["."; "!"; "?"]%char))) false rest
                (fun b s => Re.exec false (Re.Seq Re.Eol Re.Eps) b s
                              (fun _ _ => true)))%bool = true).
  replace (Re.mem (Re.Range "A" "Z") c) with true by (symmetry; exact Hc).
  cbn [andb]. apply star_none_of_all.
  - reflexivity.
  - intros x Hx. destruct (Hp x (or_intror Hx)) as (H1 & H2 & H3).
    cbn [Re.mem existsb].
    apply Ascii.eqb_neq in H1, H2, H3. rewrite H1, H2, H3. reflexivity.
Qed.

Lemma capital_is_title_type (c : ascii) (rest : string) :
  Char.is_upper_AZ c = true ->
  no_terminal_punctuation (String c rest) ->
  first_match (section_patterns __init__) (String c rest) = Some "title".
Proof.
  intros Hc Hp. cbn [first_match section_patterns __init__].
  rewrite title_pattern_matches by assumption. reflexivity.
Qed.

(** C9: a line that starts with a capital A..Z and holds none of [.], [!],
    [?] is classified 'title', the first rule of the table, whatever the
    later rules say; so the record such a header line emits at once carries
    the type 'title'.  The headers "Abstract", "Introduction" and "Results"
    are of this kind. *)
Theorem capitalised_line_is_title (c : ascii) (rest : string)
  (Hupper : Char.is_upper_AZ c = true)
  (Hpunct : no_terminal_punctuation (String c rest)) :
  returns (_identify_section_type (String c rest)) (Some "title")
  /\ (forall pn st line0,
        strip line0 = String c rest ->
        returns (section_step pn st line0)
          {| sections :=
               sections st ++ closing pn st
               ++ [ {| title := String c rest; content := "";
                       page_number := pn; section_type := "title" |} ];
             current_section := Some (String c rest);
             current_content := [] |})
  /\ returns (_identify_section_type "Abstract") (Some "title")
  /\ returns (_identify_section_type "Introduction") (Some "title")
  /\ returns (_identify_section_type "Results") (Some "title").
Proof.
  pose proof (capital_is_title_type c rest Hupper Hpunct) as Hty.
  split; [|split; [|repeat split]].
  - unfold returns. rewrite identify_run, Hty. reflexivity.
  - intros pn st line0 Hline. unfold returns. rewrite section_step_run.
    assert (Hb : all_space line0 = false).
    { destruct (all_space line0) eqn:E; auto.
      apply strip_empty_iff in E. congruence. }
    assert (Hcl : classify __init__ (strip line0) = Some "title").
    { unfold classify. rewrite Hline, Hty. reflexivity. }
    rewrite (step_header _ _ _ _ _ Hb Hcl), Hline. reflexivity.
Qed.

Lemma capitalised_line_is_title_witness :
  returns (_identify_section_type "Conclusion and outlook") (Some "title").
Proof.
  apply (capitalised_line_is_title "C" "onclusion and outlook").
  - reflexivity.
  - intros x Hx. vm_compute in Hx.
    repeat (destruct Hx as [<-|Hx]; [repeat split; discriminate|]).
    contradiction.
Defined.

End TitlePattern.

(** * The title of the document *)

Section Title.
Import Str StrFacts Run.

Lemma starts_with_spec w : forall s,
  starts_with w s = true <-> exists post, s = (w ++ post)%string.
Proof.
  induction w as [|a w IH]; intros s; simpl.
  - split; eauto.
  - destruct s as [|b s].
    + split; [discriminate | intros [post H]; discriminate].
    + rewrite andb_true_iff, IH. split.
      * intros [E [post ->]]. apply Ascii.eqb_eq in E. subst. eauto.
      * intros [post H]. injection H as -> ->.
        split; [apply Ascii.eqb_refl | eauto].
Qed.

Lemma contains_spec w : forall s,
  contains w s = true <-> exists pre post, s = (pre ++ w ++ post)%string.
Proof.
  induction s as [|b s IH].
  - simpl. rewrite orb_false_r, starts_with_spec. split.
    + intros [post H]. exists "", post. exact H.
    + intros [pre [post H]]. destruct pre; [eauto | discriminate].
  - cbn [contains]. rewrite orb_true_iff, starts_with_spec, IH. split.
    + intros [[post H] | [pre [post H]]].
      * exists "", post. exact H.
      * exists (String b pre), post. simpl. rewrite H. reflexivity.
    + intros [pre [post H]]. destruct pre as [|x pre]; simpl in H.
      * left. eauto.
      * right. injection H as _ H. eauto.
Qed.

Lemma lower_app a b : lower (a ++ b) = (lower a ++ lower b)%string.
Proof. induction a as [|x a IH]; simpl; congruence. Qed.

Lemma lower_app_inv a : forall s b,
  lower s = (a ++ b)%string ->
  exists s1 s2, s = (s1 ++ s2)%string /\ lower s1 = a /\ lower s2 = b.
Proof.
  induction a as [|x a IH]; intros s b H; simpl in H.
  - exists "", s. auto.
  - destruct s as [|y s]; simpl in H; [discriminate|].
    injection H as Hx H. destruct (IH _ _ H) as (s1 & s2 & -> & H1 & H2).
    exists (String y s1), s2. simpl. rewrite Hx, H1. auto.
Qed.

Lemma contains_lower_spec w s :
  contains (lower w) (lower s) = true <-> occurs_ignoring_case w s.
Proof.
  rewrite contains_spec. unfold occurs_ignoring_case. split.
  - intros (pre & post & H).
    apply lower_app_inv in H as (s1 & s2 & -> & H1 & H2).
    apply lower_app_inv in H2 as (s3 & s4 & -> & H3 & H4).
    exists s1, s3, s4. auto.
  - intros (pre & mid & post & -> & H).
    exists (lower pre), (lower post).
    rewrite !lower_app, H. reflexivity.
Qed.

Lemma title_test_spec line : title_test line = true <-> title_candidate line.
Proof.
  unfold title_test, title_candidate.
  rewrite !andb_true_iff, !Nat.ltb_lt, negb_true_iff.
  split.
  - intros [[H1 H2] H3]. split; [lia|].
    intros w Hw Hocc. apply contains_lower_spec in Hocc.
    assert (E : existsb (fun word => contains word (lower (strip line)))
                        title_stop_words = true).
    { apply existsb_exists. exists w. split; auto.
      replace w with (lower w) at 1; auto.
      simpl in Hw. intuition (subst; reflexivity). }
    congruence.
  - intros [[H1 H2] H3]. repeat split; auto.
    destruct (existsb _ _) eqn:E; auto.
    apply existsb_exists in E as (w & Hw & Hc).
    exfalso. apply (H3 w Hw). apply contains_lower_spec.
    replace (lower w) with w; auto.
    simpl in Hw. intuition (subst; reflexivity).
Qed.

Lemma title_scan_step line rest :
  title_scan (line :: rest)
  = if title_test line then Some (strip line) else title_scan rest.
Proof.
  unfold title_test. cbn [title_scan].
  destruct (Nat.ltb 10 _); cbn [andb]; [|reflexivity].
  destruct (Nat.ltb _ 200); cbn [andb]; [|reflexivity].
  destruct (existsb _ _); reflexivity.
Qed.

Lemma title_scan_first before line after :
  Forall (fun l => ~ title_candidate l) before ->
  title_candidate line ->
  title_scan (before ++ line :: after) = Some (strip line).
Proof.
  intros Hb Hl. induction Hb as [|l before Hn _ IH]; simpl app.
  - rewrite title_scan_step.
    apply title_test_spec in Hl. rewrite Hl. reflexivity.
  - rewrite title_scan_step.
    destruct (title_test l) eqn:E; auto.
    apply title_test_spec in E. contradiction.
Qed.

Lemma title_scan_none lines :
  Forall (fun l => ~ title_candidate l) lines -> title_scan lines = None.
Proof.
  intros H. induction H as [|l lines Hn _ IH]; auto.
  rewrite title_scan_step.
  destruct (title_test l) eqn:E; auto.
  apply title_test_spec in E. contradiction.
Qed.

(** C4: [_extract_title] returns, stripped, the first of the first 10 lines
    that stripped is longer than 10 and shorter than 200 characters and
    holds none of "abstract", "introduction", "page", "doi" with case
    ignored; when none of these lines qualifies it returns "Untitled
    Document".  On "Introduction\nA Study of Widgets\nDOI: 10.1/x" it
    returns "A Study of Widgets". *)
Theorem title_is_first_candidate_line (text : string) :
  (forall before line after,
      firstn 10 (split_lines text) = before ++ line :: after ->
      Forall (fun l => ~ title_candidate l) before ->
      title_candidate line ->
      returns (_extract_title text) (strip line))
  /\ (Forall (fun l => ~ title_candidate l) (firstn 10 (split_lines text)) ->
      returns (_extract_title text) "Untitled Document")
  /\ returns (_extract_title
                ("Introduction" ++ line_feed ++ "A Study of Widgets"
                 ++ line_feed ++ "DOI: 10.1/x")%string)
             "A Study of Widgets".
Proof.
  split; [|split].
  - intros before line after Hl Hb Hc.
    unfold returns, _extract_title.
    rewrite Hl, (title_scan_first _ _ _ Hb Hc). reflexivity.
  - intros H. unfold returns, _extract_title.
    rewrite (title_scan_none _ H). reflexivity.
  - reflexivity.
Qed.

Lemma title_is_first_candidate_line_witness :
  returns (_extract_title
             ("Introduction" ++ line_feed ++ "  A Study of Widgets "
              ++ line_feed ++ "DOI: 10.1/x")%string)
          "A Study of Widgets".
Proof.
  apply (proj1 (title_is_first_candidate_line
                  ("Introduction" ++ line_feed ++ "  A Study of Widgets "
                   ++ line_feed ++ "DOI: 10.1/x")%string)
               ["Introduction"] "  A Study of Widgets " ["DOI: 10.1/x"]).
  - reflexivity.
  - constructor; [|constructor].
    intros H. apply title_test_spec in H. discriminate.
  - apply title_test_spec. reflexivity.
Defined.

End Title.

(** * The abstract of the document *)

Section PatternsAtStart.

Lemma search_from_bol_false ic r : forall s,
  Re.search_from (Re.Pattern ic (Re.Seq Re.Bol r)) false s = false.
Proof.
  induction s as [|c s IH]; simpl; auto.
Qed.

Lemma search_bol ic r s :
  Re.search (Re.Pattern ic (Re.Seq Re.Bol r)) s
  = Re.exec ic r true s (fun _ _ => true).
Proof.
  unfold Re.search. destruct s as [|c s]; cbn [Re.search_from].
  - unfold Re.match_here. simpl. apply orb_false_r.
  - rewrite search_from_bol_false. unfold Re.match_here. simpl.
    apply orb_false_r.
Qed.

(** The 'abstract' rule: the line begins, case ignored, with "abstract" or
    with "summary". *)
Lemma is_heading_spec l :
  is_heading l = true
  <-> begins_ignoring_case "abstract" l \/ begins_ignoring_case "summary" l.
Proof.
  unfold is_heading, Patterns.abstract, Patterns.Cat. cbn [fold_right].
  rewrite search_bol.
  change (Re.exec true (Re.Word "abstract") true l (fun _ _ => true)
          || Re.exec true (Re.Word "summary") true l (fun _ _ => true) = true
          <-> begins_ignoring_case "abstract" l
              \/ begins_ignoring_case "summary" l)%bool.
  rewrite orb_true_iff. unfold begins_ignoring_case.
  split; intros [H|H].
  - left. eapply ReFacts.exec_word_ignorecase; eauto.
  - right. eapply ReFacts.exec_word_ignorecase; eauto.
  - left. destruct H as (p & rest & -> & Hp).
    apply ReFacts.exec_word_ignorecase_intro; auto.
  - right. destruct H as (p & rest & -> & Hp).
    apply ReFacts.exec_word_ignorecase_intro; auto.
Qed.

Local Opaque Re.lit_eq Char.is_digit Char.is_space.

Lemma heading_first l :
  is_heading l = true ->
  exists c t, l = String c t /\ heading_initial c = true.
Proof.
  unfold is_heading, Patterns.abstract, Patterns.Cat. cbn [fold_right].
  rewrite search_bol. destruct l as [|c t]; cbn; [discriminate|].
  intros H. exists c, t. split; auto. unfold heading_initial.
  apply orb_true_iff in H as [H|H]; apply andb_true_iff in H as [H _];
    rewrite H; auto using orb_true_r.
Qed.

Lemma end_first l :
  abstract_end_rule l = true ->
  exists c t, l = String c t /\ end_initial c = true.
Proof.
  unfold abstract_end_rule, Patterns.numbered, Patterns.intro_or_one,
    Patterns.keywords, Patterns.Cat, Patterns.plural, Patterns.digits1,
    Patterns.spaces1, Re.Plus.
  cbn [fold_right]. rewrite !search_bol.
  destruct l as [|c t]; [cbn; discriminate|].
  intros H. exists c, t. split; auto. unfold end_initial.
  cbn [Re.exec Re.Word Re.mem] in H.
  repeat (apply orb_true_iff in H as [H|H]);
    apply andb_true_iff in H as [H _]; rewrite H;
    rewrite ?orb_true_r; reflexivity.
Qed.

Local Transparent Re.lit_eq Char.is_digit Char.is_space.

Lemma initials_disjoint c : heading_initial c = true -> end_initial c = false.
Proof.
  destruct c as [[] [] [] [] [] [] [] []]; vm_compute; congruence.
Qed.

(** A line that matches the 'abstract' rule matches none of the end rules. *)
Lemma heading_is_no_end l : is_heading l = true -> abstract_end_rule l = false.
Proof.
  intros H. destruct (abstract_end_rule l) eqn:E; auto.
  apply heading_first in H as (c & t & -> & Hc).
  apply end_first in E as (c' & t' & E' & Hc').
  injection E' as <- <-. apply initials_disjoint in Hc. congruence.
Qed.

End PatternsAtStart.

Section AbstractScan.
Import Str StrFacts Run.

Lemma getitem_abstract :
  getitem "abstract" __init__ = (inr Patterns.abstract, __init__).
Proof. reflexivity. Qed.

Lemma scan_cons l rest i st :
  scan (l :: rest) i st
  = if is_heading l then scan rest (S i) (Some (i + 1))
    else if (truthy_opt_int st && abstract_end_rule l)%bool
         then (st, Some i)
         else scan rest (S i) st.
Proof.
  unfold scan, is_heading. cbn [abstract_scan]. unfold bind at 1.
  rewrite getitem_abstract.
  destruct (Re.search Patterns.abstract l); [reflexivity|].
  destruct (truthy_opt_int st && abstract_end_rule l)%bool; reflexivity.
Qed.

Lemma abstract_scan_run lines : forall i st,
  succeeds (abstract_scan lines i st) __init__ (scan lines i st).
Proof.
  unfold succeeds.
  induction lines as [|l lines IH]; intros i st; [reflexivity|].
  rewrite scan_cons. cbn [abstract_scan]. unfold bind at 1.
  rewrite getitem_abstract. unfold is_heading.
  destruct (Re.search Patterns.abstract l); [apply IH|].
  destruct (truthy_opt_int st && abstract_end_rule l)%bool;
    [reflexivity | apply IH].
Qed.

Lemma extract_abstract_unstarted text x :
  scan (split_lines text) 0 None = (None, x) ->
  returns (_extract_abstract text) None.
Proof.
  intros H. unfold returns, _extract_abstract.
  unfold bind. rewrite abstract_scan_run, H. reflexivity.
Qed.

Lemma extract_abstract_stopped text s e :
  scan (split_lines text) 0 None = (Some s, Some e) ->
  s <> 0 -> e <> 0 ->
  returns (_extract_abstract text) (abstract_of_range (split_lines text) s e).
Proof.
  intros H Hs He. unfold returns, _extract_abstract, abstract_of_range.
  unfold bind. rewrite abstract_scan_run, H. cbn [fst snd truthy_opt_int].
  apply Nat.eqb_neq in Hs, He. rewrite Hs, He. cbn [negb].
  destruct (Nat.ltb 50 _); reflexivity.
Qed.

Lemma extract_abstract_open text s :
  scan (split_lines text) 0 None = (Some s, None) ->
  s <> 0 ->
  returns (_extract_abstract text)
          (abstract_of_range (split_lines text) s (s + 10)).
Proof.
  intros H Hs. unfold returns, _extract_abstract, abstract_of_range.
  unfold bind. rewrite abstract_scan_run, H. cbn [fst snd truthy_opt_int].
  apply Nat.eqb_neq in Hs. rewrite Hs. cbn [negb].
  destruct (Nat.ltb 50 _); reflexivity.
Qed.

Variable lines : list string.

Lemma skipn_nth i l :
  nth_error lines i = Some l -> skipn i lines = l :: skipn (S i) lines.
Proof.
  revert i. induction lines as [|x xs IH]; intros [|i] H;
    simpl in *; try discriminate.
  - injection H as ->. reflexivity.
  - apply IH. exact H.
Qed.

Lemma line_exists i : i < List.length lines -> exists l, nth_error lines i = Some l.
Proof.
  intros H. destruct (nth_error lines i) eqn:E; eauto.
  apply nth_error_None in E. lia.
Qed.

(** Lines that match neither the 'abstract' rule nor, once the start is
    set, an end rule leave [abstract_start] as it is. *)
Lemma walk_quiet n : forall i st,
  i + n <= List.length lines ->
  (forall j, i <= j < i + n -> line_is_not lines j is_heading) ->
  (started st ->
   forall j, i <= j < i + n -> line_is_not lines j abstract_end_rule) ->
  scan (skipn i lines) i st = scan (skipn (i + n) lines) (i + n) st.
Proof.
  induction n as [|n IH]; intros i st Hlen Hh He.
  - rewrite Nat.add_0_r. reflexivity.
  - destruct (line_exists i) as [l Hl]; [lia|].
    rewrite (skipn_nth _ _ Hl), scan_cons.
    rewrite (Hh i ltac:(lia) l Hl).
    replace (truthy_opt_int st && abstract_end_rule l)%bool with false.
    + replace (i + S n) with (S i + n) by lia.
      apply IH; [lia | intros; apply Hh; lia | intros; apply He; auto; lia].
    + destruct (truthy_opt_int st) eqn:E; auto.
      rewrite (He E i ltac:(lia) l Hl). reflexivity.
Qed.

(** Lines that match no end rule cannot stop the loop. *)
Lemma walk_safe n : forall i st,
  i + n <= List.length lines ->
  started st ->
  (forall j, i <= j < i + n -> line_is_not lines j abstract_end_rule) ->
  exists st',
    started st'
    /\ scan (skipn i lines) i st = scan (skipn (i + n) lines) (i + n) st'.
Proof.
  induction n as [|n IH]; intros i st Hlen Hst He.
  - exists st. rewrite Nat.add_0_r. auto.
  - destruct (line_exists i) as [l Hl]; [lia|].
    rewrite (skipn_nth _ _ Hl), scan_cons.
    rewrite (He i ltac:(lia) l Hl), andb_false_r.
    replace (i + S n) with (S i + n) by lia.
    destruct (is_heading l).
    + apply IH; [lia | | intros; apply He; lia].
      unfold started. simpl. rewrite Nat.add_1_r. reflexivity.
    + apply IH; [lia | exact Hst | intros; apply He; lia].
Qed.

(** After the last heading line the start is one past it. *)
Lemma scan_to_last first last :
  line_is lines first is_heading ->
  (forall j, j < first -> line_is_not lines j is_heading) ->
  line_is lines last is_heading ->
  (forall j, first < j <= last -> line_is_not lines j abstract_end_rule) ->
  scan lines 0 None = scan (skipn (S last) lines) (S last) (Some (last + 1)).
Proof.
  intros [lf [Hlf Hf]] Hfirst [ll [Hll Hl]] Hend.
  assert (Hle : first <= last).
  { destruct (Nat.le_gt_cases first last) as [|Hlt]; auto.
    rewrite (Hfirst last Hlt ll Hll) in Hl. discriminate. }
  assert (Hlast : last < List.length lines).
  { apply nth_error_Some. congruence. }
  change (scan lines 0 None) with (scan (skipn 0 lines) 0 None).
  rewrite (walk_quiet first 0 None); simpl;
    [| lia | intros; apply Hfirst; lia | discriminate].
  rewrite (skipn_nth _ _ Hlf), scan_cons, Hf.
  destruct (Nat.eq_dec first last) as [->|Hne].
  - reflexivity.
  - destruct (walk_safe (last - S first) (S first) (Some (first + 1)))
      as [st' [_ E]].
    + lia.
    + unfold started. simpl. rewrite Nat.add_1_r. reflexivity.
    + intros. apply Hend. lia.
    + rewrite E. replace (S first + (last - S first)) with last by lia.
      rewrite (skipn_nth _ _ Hll), scan_cons, Hl. reflexivity.
Qed.

End AbstractScan.

Section Abstract.
Import Str StrFacts Run.

Lemma end_is_no_heading l : abstract_end_rule l = true -> is_heading l = false.
Proof.
  intros H. destruct (is_heading l) eqn:E; auto.
  apply heading_is_no_end in E. congruence.
Qed.

Lemma first_before_last lines first last :
  (forall j, j < first -> line_is_not lines j is_heading) ->
  line_is lines last is_heading -> first <= last.
Proof.
  intros Hfirst [l [Hl Hh]].
  destruct (Nat.le_gt_cases first last) as [|Hlt]; auto.
  rewrite (Hfirst last Hlt l Hl) in Hh. discriminate.
Qed.

(** C1, as the code has it: without a line that matches the 'abstract' rule
    (a line beginning, case ignored, with "abstract" or "summary") there is no
    abstract.  Otherwise the end is the first line after the first such
    heading that matches an end rule, and the start is one past the LAST
    heading line before that end (before the end of the page when there is
    no end); the lines from the start to the end, or the ten lines from the
    start when there is no end, joined with single spaces and stripped, are
    returned when longer than 50 characters, and nothing otherwise.  On the
    specification's example the sentence after "Abstract" is returned. *)
Theorem abstract_starts_after_last_heading (text : string) :
  let lines := split_lines text in
  ((forall i, line_is_not lines i is_heading) ->
   returns (_extract_abstract text) None)
  /\ (forall first last stop,
        line_is lines first is_heading ->
        (forall j, j < first -> line_is_not lines j is_heading) ->
        first < stop ->
        line_is lines stop abstract_end_rule ->
        (forall j, first < j < stop -> line_is_not lines j abstract_end_rule) ->
        line_is lines last is_heading ->
        last < stop ->
        (forall j, last < j < stop -> line_is_not lines j is_heading) ->
        returns (_extract_abstract text)
                (abstract_of_range lines (last + 1) stop))
  /\ (forall first last,
        line_is lines first is_heading ->
        (forall j, j < first -> line_is_not lines j is_heading) ->
        (forall j, first < j -> line_is_not lines j abstract_end_rule) ->
        line_is lines last is_heading ->
        (forall j, last < j -> line_is_not lines j is_heading) ->
        returns (_extract_abstract text)
                (abstract_of_range lines (last + 1) (last + 1 + 10)))
  /\ returns (_extract_abstract page_with_one_heading)
       (Some "This paper examines widget durability across fifty trials in controlled settings.")
  /\ (forall l, is_heading l = true
                <-> begins_ignoring_case "abstract" l
                    \/ begins_ignoring_case "summary" l).
Proof.
  intros lines. split; [|split; [|split; [|split]]]; [| | | |apply is_heading_spec].
  - intros Hno. apply (extract_abstract_unstarted text None).
    fold lines. change (scan lines 0 None) with (scan (skipn 0 lines) 0 None).
    rewrite (walk_quiet lines (List.length lines) 0 None);
      [| simpl; lia | intros; apply Hno | discriminate].
    simpl. rewrite skipn_all. reflexivity.
  - intros first last stop Hf Hfirst Hlt Hstop Hend Hl Hls Hlast.
    pose proof (first_before_last lines first last Hfirst Hl) as Hle.
    apply extract_abstract_stopped; [|lia|lia]. fold lines.
    rewrite (scan_to_last lines first last Hf Hfirst Hl)
      by (intros; apply Hend; lia).
    destruct Hstop as [le [Hle' He]].
    assert (Hbound : stop < List.length lines).
    { apply nth_error_Some. congruence. }
    rewrite (walk_quiet lines (stop - S last) (S last) (Some (last + 1)));
      [| lia | intros; apply Hlast; lia | intros; apply Hend; lia].
    replace (S last + (stop - S last)) with stop by lia.
    rewrite (skipn_nth _ _ _ Hle'), scan_cons.
    rewrite (end_is_no_heading _ He), He.
    simpl. rewrite Nat.add_1_r. reflexivity.
  - intros first last Hf Hfirst Hend Hl Hlast.
    pose proof (first_before_last lines first last Hfirst Hl) as Hle.
    apply extract_abstract_open; [|lia]. fold lines.
    rewrite (scan_to_last lines first last Hf Hfirst Hl)
      by (intros; apply Hend; lia).
    assert (Hbound : last < List.length lines).
    { destruct Hl as [l [Hl _]]. apply nth_error_Some. congruence. }
    rewrite (walk_quiet lines (List.length lines - S last) (S last)
               (Some (last + 1)));
      [| lia | intros; apply Hlast; lia | intros; apply Hend; lia].
    replace (S last + (List.length lines - S last))
      with (List.length lines) by lia.
    rewrite skipn_all. reflexivity.
  - reflexivity.
Qed.

Lemma abstract_starts_after_last_heading_witness :
  returns (_extract_abstract page_with_two_headings)
    (Some "This paper examines widget durability across fifty trials in controlled settings.").
Proof.
  apply (proj1 (proj2 (abstract_starts_after_last_heading
                         page_with_two_headings)) 0 1 3).
  - eexists. split; reflexivity.
  - intros j Hj. lia.
  - lia.
  - eexists. split; reflexivity.
  - intros [|[|[|j]]] Hj l Hl; try lia;
      vm_compute in Hl; injection Hl as <-; reflexivity.
  - eexists. split; reflexivity.
  - lia.
  - intros [|[|[|j]]] Hj l Hl; try lia;
      vm_compute in Hl; injection Hl as <-; reflexivity.
Defined.

(** C1, as the specification words it, fails on a page whose abstract has a
    line beginning with "Summary": the code starts after that line, not
    after the first heading. *)
Lemma abstract_start_is_not_after_first_heading :
  ~ starts_after_first_heading page_with_two_headings.
Proof.
  intros (_ & H & _).
  specialize (H 0 3).
  assert (E : returns (_extract_abstract page_with_two_headings)
                (abstract_of_range (split_lines page_with_two_headings)
                                   (0 + 1) 3)).
  { apply H.
    - eexists. split; reflexivity.
    - intros j Hj. lia.
    - lia.
    - eexists. split; reflexivity.
    - intros [|[|[|j]]] Hj l Hl; try lia;
        vm_compute in Hl; injection Hl as <-; reflexivity. }
  vm_compute in E. discriminate E.
Qed.

End Abstract.

(** * Totality *)

Section Totality.
Import Str StrFacts Run.

Lemma extract_title_returns text : exists v, returns (_extract_title text) v.
Proof.
  unfold returns, _extract_title.
  destruct (title_scan _); eexists; reflexivity.
Qed.

Lemma extract_abstract_returns text :
  exists v, returns (_extract_abstract text) v.
Proof.
  unfold returns, _extract_abstract, bind.
  rewrite abstract_scan_run.
  destruct (scan (split_lines text) 0 None) as [[s|] e]; cbn [fst snd];
    [|eexists; reflexivity].
  destruct (truthy_opt_int (Some s)); [|eexists; reflexivity].
  match goal with
  | |- context [Nat.ltb 50 ?n] => destruct (Nat.ltb 50 n)
  end; eexists; reflexivity.
Qed.

(** C3: on every string, and every page number, the three operations of the
    segmenter return a value and raise nothing; on the empty string
    [_extract_sections] returns the empty list, [_extract_title] returns
    "Untitled Document" and [_extract_abstract] returns no abstract. *)
Theorem segmenter_is_total :
  (forall text pn, exists v, returns (_extract_sections text pn) v)
  /\ (forall text, exists v, returns (_extract_title text) v)
  /\ (forall text, exists v, returns (_extract_abstract text) v)
  /\ (forall pn, returns (_extract_sections "" pn) [])
  /\ returns (_extract_title "") "Untitled Document"
  /\ returns (_extract_abstract "") None.
Proof.
  repeat split.
  - intros text pn. eexists. apply extract_sections_run.
  - apply extract_title_returns.
  - apply extract_abstract_returns.
Qed.

End Totality.

(** * Further properties of the segmenter *)

Section TitleShape.
Import Str StrFacts Run.

Lemma title_scan_some lines t :
  title_scan lines = Some t ->
  exists l, In l lines /\ t = strip l /\ title_candidate l.
Proof.
  induction lines as [|l lines IH]; [discriminate|].
  rewrite title_scan_step. destruct (title_test l) eqn:E.
  - intros H. injection H as <-. apply title_test_spec in E.
    exists l. split; [left; reflexivity|]. split; [reflexivity | exact E].
  - intros H. destruct (IH H) as (l' & Hin & Ht & Hc).
    exists l'. simpl. auto.
Qed.

Lemma fallback_has_no_stop_word w :
  In w title_stop_words -> ~ occurs_ignoring_case w "Untitled Document".
Proof.
  intros Hw Hocc. apply contains_lower_spec in Hocc.
  simpl in Hw. intuition (subst; discriminate).
Qed.

(** X1: the title of a document is never degenerate: it has more than 10 and
    fewer than 200 characters, no white space at either end, and none of the
    stop words, also when it is the fallback. *)
Theorem title_is_well_formed (text : string) :
  exists t,
    returns (_extract_title text) t
    /\ 10 < String.length t < 200
    /\ trimmed t
    /\ forall w, In w title_stop_words -> ~ occurs_ignoring_case w t.
Proof.
  unfold returns, _extract_title.
  destruct (title_scan (firstn 10 (split_lines text))) as [t|] eqn:E.
  - exists t. split; [reflexivity|].
    apply title_scan_some in E as (l & _ & -> & [Hlen Hstop]).
    split; [exact Hlen|]. split; [apply strip_trimmed | exact Hstop].
  - exists "Untitled Document". split; [reflexivity|].
    split; [simpl; lia|]. split.
    + apply (trimmed_between "U" "t" "ntitled Documen"); reflexivity.
    + apply fallback_has_no_stop_word.
Qed.

End TitleShape.

Section JoinFacts.
Import Str StrFacts.

Lemma strip_fixed (s : string) : trimmed s -> strip s = s.
Proof.
  intros [Hh Hl]. unfold strip. rewrite (lstrip_fixed _ Hh).
  clear Hh. induction s as [|c s IH]; simpl; auto.
  rewrite IH.
  - destruct s as [|d s]; simpl.
    + rewrite (Hl "" c eq_refl). reflexivity.
    + rewrite andb_false_r. reflexivity.
  - intros t c' E. apply (Hl (String c t) c'). simpl. rewrite E. reflexivity.
Qed.

Lemma snoc_cases (t : string) :
  t = "" \/ exists t' d, t = (t' ++ String d "")%string.
Proof.
  induction t as [|c t IH]; auto.
  right. destruct IH as [->|(t' & d & ->)].
  - exists "", c. reflexivity.
  - exists (String c t'), d. reflexivity.
Qed.

Lemma head_ok_app (s t : string) :
  s <> "" -> head_ok s -> head_ok (s ++ t).
Proof.
  destruct s as [|c s]; [congruence|].
  intros _ H x u E. simpl in E. injection E as <- _. apply (H c s eq_refl).
Qed.

Lemma last_ok_app (s t : string) :
  t <> "" -> last_ok t -> last_ok (s ++ t).
Proof.
  intros Hne H u c E.
  destruct (snoc_cases t) as [->|(t' & d & ->)]; [congruence|].
  rewrite <- append_assoc in E. apply append_last_inj in E. subst.
  apply (H t' c eq_refl).
Qed.

Lemma append_nonempty (s t : string) : s <> "" -> (s ++ t)%string <> "".
Proof. destruct s; [congruence | discriminate]. Qed.

Lemma join_cons2 x y r :
  join_spaces (x :: y :: r) = (x ++ " " ++ join_spaces (y :: r))%string.
Proof. reflexivity. Qed.

Lemma join_nonempty x r : x <> "" -> join_spaces (x :: r) <> "".
Proof.
  intros H. destruct r as [|y r]; [exact H|].
  rewrite join_cons2. apply append_nonempty. exact H.
Qed.

Lemma join_good_trimmed (l : list string) :
  Forall good_line l -> trimmed (join_spaces l).
Proof.
  induction 1 as [|x l [[Hh Hl] Hx] Hrest IH]; [apply trimmed_empty|].
  destruct l as [|y r]; [split; assumption|].
  rewrite join_cons2. split.
  - apply head_ok_app; assumption.
  - apply last_ok_app.
    + intros E. destruct (String.append " " _) eqn:E'; discriminate.
    + apply last_ok_app; [|apply IH].
      inversion Hrest as [|? ? [_ Hy] _]; subst.
      apply join_nonempty. exact Hy.
Qed.

Lemma join_good_strip (l : list string) :
  Forall good_line l -> strip (join_spaces l) = join_spaces l.
Proof. intros H. apply strip_fixed, join_good_trimmed, H. Qed.

Lemma join_app (l1 l2 : list string) :
  l1 <> [] -> l2 <> [] ->
  join_spaces (l1 ++ l2)
  = (join_spaces l1 ++ " " ++ join_spaces l2)%string.
Proof.
  intros H1 H2. induction l1 as [|x l1 IH]; [congruence|].
  destruct l1 as [|y l1].
  - simpl app. destruct l2 as [|z l2]; [congruence|]. reflexivity.
  - change ((x :: y :: l1) ++ l2) with (x :: y :: (l1 ++ l2)).
    rewrite !join_cons2.
    change (y :: l1 ++ l2) with ((y :: l1) ++ l2).
    rewrite IH by discriminate. rewrite !append_assoc. reflexivity.
Qed.

(** Joining the joins of groups with text is joining all their lines. *)
Lemma join_groups (groups : list (list string)) :
  Forall (fun g => g <> []) groups ->
  join_spaces (map join_spaces groups) = join_spaces (List.concat groups).
Proof.
  induction 1 as [|g groups Hg Hrest IH]; [reflexivity|].
  destruct groups as [|g' groups].
  - simpl. rewrite app_nil_r. reflexivity.
  - cbn [map]. rewrite join_cons2.
    change (join_spaces g' :: map join_spaces groups)
      with (map join_spaces (g' :: groups)).
    rewrite IH.
    change (List.concat (g :: g' :: groups))
      with (g ++ List.concat (g' :: groups)).
    rewrite join_app; [reflexivity | exact Hg |].
    inversion Hrest as [|? ? Hg' _]; subst.
    cbn [List.concat]. destruct g'; [congruence|].
    intros E. discriminate E.
Qed.

Lemma visible_good (lines : list string) :
  Forall good_line (visible_lines lines).
Proof.
  unfold visible_lines. apply Forall_forall. intros l Hl.
  apply filter_In in Hl as [Hin Hne]. apply in_map_iff in Hin as (l0 & <- & _).
  split; [apply strip_trimmed|].
  intros E. rewrite E in Hne. discriminate.
Qed.

Lemma good_not_blank (l : string) : good_line l -> all_space l = false.
Proof.
  intros [Ht Hne]. destruct (all_space l) eqn:E; auto.
  apply strip_empty_iff in E. rewrite (strip_fixed _ Ht) in E. congruence.
Qed.

End JoinFacts.

Section PageShape.
Import Str StrFacts Run.

Variable pn : Z.

Lemma step_strip self st l : step self pn st (strip l) = step self pn st l.
Proof. unfold step, section_step. rewrite strip_idem. reflexivity. Qed.

Lemma fold_visible self lines : forall st,
  fold_left (step self pn) (visible_lines lines) st
  = fold_left (step self pn) lines st.
Proof.
  unfold visible_lines.
  induction lines as [|l lines IH]; intros st; [reflexivity|].
  cbn [map filter fold_left].
  destruct (is_empty (strip l)) eqn:E; cbn [negb].
  - apply is_empty_true, strip_empty_iff in E.
    rewrite (step_blank _ _ _ _ E). apply IH.
  - cbn [fold_left]. rewrite step_strip. apply IH.
Qed.

Lemma body_lines_good (l : list string) :
  Forall good_line l -> body_lines l = l.
Proof.
  unfold body_lines. induction 1 as [|x l Hx _ IH]; [reflexivity|].
  cbn [filter]. rewrite (good_not_blank _ Hx). cbn [negb map].
  rewrite IH, (strip_fixed _ (proj1 Hx)). reflexivity.
Qed.

Lemma classify_named line ty :
  classify __init__ line = Some ty ->
  In ty named_types /\ String.eqb ty "section" = false.
Proof.
  unfold classify, header_type.
  destruct (first_match (section_patterns __init__) line) as [t|] eqn:E;
    [|discriminate].
  destruct (truthy_str t && negb (String.eqb t "section"))%bool eqn:C;
    [|discriminate].
  intros H. injection H as <-.
  apply andb_true_iff in C as [_ C]. apply negb_true_iff in C.
  split; [|exact C].
  apply first_match_some in E as (t1 & p & t2 & Et & _ & _).
  assert (Hin : In t priority).
  { rewrite <- init_keys, Et, map_app. apply in_or_app. right. left.
    reflexivity. }
  simpl in Hin. simpl.
  repeat (destruct Hin as [<-|Hin]; [auto 10|]); try contradiction.
  discriminate C.
Qed.

Lemma closing_shape st : Forall record_shape (closing pn st).
Proof.
  unfold closing. destruct (current_section st) as [cur|]; [|constructor].
  destruct (truthy_str cur) eqn:E; constructor; [|constructor].
  split; [|right; reflexivity].
  simpl. intros ->. discriminate E.
Qed.

Lemma step_shape st line0 :
  Forall record_shape (sections st) ->
  Forall record_shape (sections (step __init__ pn st line0)).
Proof.
  intros Hst.
  destruct (step_cases __init__ pn st line0) as [E | [[ty [Hb Hc]] | [Hb Hc]]].
  - rewrite E. exact Hst.
  - rewrite (step_header _ _ _ _ _ Hb Hc). cbn [sections].
    apply Forall_app. split; [exact Hst|].
    apply Forall_app. split; [apply closing_shape|].
    constructor; [|constructor]. split; simpl.
    + intros E. apply strip_empty_iff in E. congruence.
    + left. split; [reflexivity | apply (classify_named _ _ Hc)].
  - rewrite (step_body _ _ _ _ Hb Hc). exact Hst.
Qed.

Lemma fold_shape lines : forall st,
  Forall record_shape (sections st) ->
  Forall record_shape (sections (fold_left (step __init__ pn) lines st)).
Proof.
  induction lines as [|l lines IH]; intros st H; simpl; auto.
  apply IH, step_shape, H.
Qed.

Lemma save_last_shape st :
  Forall record_shape (sections st) -> Forall record_shape (save_last pn st).
Proof.
  intros H. unfold save_last.
  destruct (current_section st) as [cur|]; auto.
  destruct (current_content st); auto.
  destruct (truthy_str cur) eqn:E; auto.
  apply Forall_app. split; auto.
  constructor; [|constructor]. split; [|right; reflexivity].
  simpl. intros ->. discriminate E.
Qed.

End PageShape.

Section PageProperties.
Import Str StrFacts Run.

(** X2: every record of a page has a title with text and is either the opening
    of a section, with no content and one of the seven named types, or a
    saved section of type 'section': a record with content is never typed,
    and the type 'section' is never detected for an opening. *)
Theorem records_open_or_save (text : string) (pn : Z) :
  exists out,
    returns (_extract_sections text pn) out
    /\ Forall (fun r =>
                 title r <> ""
                 /\ ((content r = "" /\ In (section_type r) named_types)
                     \/ section_type r = "section")) out.
Proof.
  eexists. split; [apply extract_sections_run|].
  apply save_last_shape, fold_shape. constructor.
Qed.

(** X3: segmentation looks at the stripped lines with text only: two pages
    that differ in indentation, trailing white space or blank lines alone
    yield the same records. *)
Theorem segmentation_ignores_layout (text1 text2 : string) (pn : Z)
  (Hsame : visible_lines (split_lines text1)
           = visible_lines (split_lines text2)) :
  exists out,
    returns (_extract_sections text1 pn) out
    /\ returns (_extract_sections text2 pn) out.
Proof.
  eexists. split; [apply extract_sections_run|].
  unfold returns. rewrite extract_sections_run.
  rewrite <- (fold_visible pn __init__ (split_lines text2)), <- Hsame.
  rewrite fold_visible. reflexivity.
Qed.

Lemma segmentation_ignores_layout_witness :
  exists out,
    returns (_extract_sections
               ("results" ++ line_feed ++ "we win.")%string 1) out
    /\ returns (_extract_sections
                  ("  results " ++ line_feed ++ line_feed ++ " we win."
                   ++ line_feed)%string 1) out.
Proof.
  apply (segmentation_ignores_layout
           ("results" ++ line_feed ++ "we win.")%string
           ("  results " ++ line_feed ++ line_feed ++ " we win."
            ++ line_feed)%string 1).
  reflexivity.
Defined.

(** X4: a page on which no line is a header, and some line has text, yields one
    record: titled "Page {page_number} Content", of type 'section', holding
    all its stripped lines with text joined by single spaces. *)
Theorem page_without_headers (text : string) (pn : Z)
  (Hno : Forall (fun l => classify __init__ (strip l) = None)
                (split_lines text))
  (Hsome : visible_lines (split_lines text) <> []) :
  returns (_extract_sections text pn)
    [ {| title := ("Page " ++ of_int pn ++ " Content")%string;
         content := join_spaces (visible_lines (split_lines text));
         page_number := pn;
         section_type := "section" |} ].
Proof.
  unfold returns. rewrite extract_sections_run, <- fold_visible.
  pose proof (visible_good (split_lines text)) as Hgood.
  assert (Hnone : Forall (fun v => classify __init__ v = None)
                         (visible_lines (split_lines text))).
  { apply Forall_forall. intros v Hv. unfold visible_lines in Hv.
    apply filter_In in Hv as [Hv _]. apply in_map_iff in Hv as (l & <- & Hl).
    rewrite Forall_forall in Hno. auto. }
  destruct (visible_lines (split_lines text)) as [|v rest]; [congruence|].
  inversion Hgood as [|? ? Hv Hrest]; subst.
  inversion Hnone as [|? ? Hcv Hcrest]; subst.
  cbn [fold_left].
  assert (Ev : strip v = v) by (apply strip_fixed, Hv).
  rewrite <- Ev in Hcv.
  rewrite (step_body _ _ _ _ (good_not_blank _ Hv) Hcv).
  rewrite (fold_body __init__ pn rest).
  - rewrite (body_lines_good _ Hrest), Ev.
    cbn [sections current_section current_content fresh_locals
         truthy_opt_str app].
    unfold save_last, saved, page_title.
    cbn [sections current_section current_content app].
    rewrite (join_good_strip _ Hgood). reflexivity.
  - reflexivity.
  - apply Forall_forall. intros l Hl. right.
    rewrite Forall_forall in Hcrest, Hrest.
    rewrite (strip_fixed _ (proj1 (Hrest l Hl))). auto.
Qed.

Lemma page_without_headers_witness :
  returns (_extract_sections
             ("first line." ++ line_feed ++ line_feed ++ "  second line. ")%string 5)
    [ {| title := "Page 5 Content";
         content := "first line. second line.";
         page_number := 5;
         section_type := "section" |} ].
Proof.
  apply (page_without_headers
           ("first line." ++ line_feed ++ line_feed ++ "  second line. ")%string 5).
  - repeat constructor.
  - discriminate.
Defined.

End PageProperties.

Section Conservation.
Import Str StrFacts Run.

Variable pn : Z.

Lemma nonempty_contents_app a b :
  nonempty_contents (a ++ b) = nonempty_contents a ++ nonempty_contents b.
Proof. unfold nonempty_contents. rewrite map_app, filter_app. reflexivity. Qed.

Lemma openings_of_app a b : openings_of (a ++ b) = openings_of a ++ openings_of b.
Proof. unfold openings_of. apply filter_app. Qed.

Lemma saved_contents cur buf :
  Forall good_line buf ->
  nonempty_contents [saved cur buf pn]
  = match buf with [] => [] | _ :: _ => [join_spaces buf] end.
Proof.
  intros H. unfold nonempty_contents, saved. cbn [map content filter].
  rewrite (join_good_strip _ H). destruct buf as [|x buf]; [reflexivity|].
  inversion H as [|? ? [_ Hx] _]; subst.
  destruct (join_spaces (x :: buf)) eqn:E; [|reflexivity].
  exfalso. apply (join_nonempty x buf Hx E).
Qed.

Lemma closing_contents st :
  Forall good_line (current_content st) ->
  (current_content st <> [] -> truthy_opt_str (current_section st) = true) ->
  nonempty_contents (closing pn st)
  = match current_content st with
    | [] => []
    | _ :: _ => [join_spaces (current_content st)]
    end.
Proof.
  intros Hgood Hopen. unfold closing.
  destruct (current_section st) as [cur|] eqn:Ec.
  - destruct (truthy_str cur) eqn:Et.
    + apply saved_contents, Hgood.
    + destruct (current_content st); [reflexivity|].
      simpl in Hopen. rewrite Et in Hopen.
      discriminate Hopen. discriminate.
  - destruct (current_content st); [reflexivity|].
    simpl in Hopen. discriminate Hopen. discriminate.
Qed.

Lemma closing_openings st : openings_of (closing pn st) = [].
Proof.
  unfold closing. destruct (current_section st) as [cur|]; [|reflexivity].
  destruct (truthy_str cur); reflexivity.
Qed.

Lemma step_conserved st pre v :
  good_line v ->
  conserved pn st pre ->
  conserved pn (step __init__ pn st v) (pre ++ [v]).
Proof.
  intros Hv ((groups & Hne & Hcont & Hcat) & Hop & Hgood & Hopen).
  pose proof (good_not_blank _ Hv) as Hb.
  assert (Ev : strip v = v) by (apply strip_fixed, Hv).
  unfold conserved. rewrite filter_app, flat_map_app. cbn [filter flat_map].
  unfold is_header at 2, opening_of_line at 2.
  destruct (classify __init__ v) as [ty|] eqn:Hc; rewrite <- Ev in Hc.
  - rewrite (step_header _ _ _ _ _ Hb Hc), Ev.
    cbn [sections current_section current_content negb].
    repeat split.
    + exists (groups ++ match current_content st with
                        | [] => []
                        | _ :: _ => [current_content st]
                        end).
      rewrite !nonempty_contents_app, Hcont.
      rewrite (closing_contents _ Hgood Hopen).
      rewrite !app_nil_r, <- Hcat.
      destruct (current_content st) as [|x buf] eqn:Eb.
      * rewrite !app_nil_r. repeat split; auto.
      * repeat split.
        -- apply Forall_app. split; auto. constructor; [discriminate|auto].
        -- rewrite map_app. reflexivity.
        -- rewrite concat_app. cbn [List.concat]. rewrite app_nil_r.
           reflexivity.
    + rewrite !openings_of_app, closing_openings, Hop. cbn [app].
      unfold openings_of, opening. cbn [filter section_type].
      rewrite (proj2 (classify_named _ _ Hc)). reflexivity.
    + constructor.
    + intros H. congruence.
  - rewrite (step_body _ _ _ _ Hb Hc), Ev.
    cbn [sections current_section current_content negb].
    repeat split.
    + exists groups. repeat split; auto.
      rewrite app_assoc, Hcat. reflexivity.
    + rewrite app_nil_r. exact Hop.
    + apply Forall_app. split; auto.
    + intros _. destruct (truthy_opt_str (current_section st)) eqn:E; auto.
Qed.

Lemma fold_conserved lines : forall st pre,
  Forall good_line lines ->
  conserved pn st pre ->
  conserved pn (fold_left (step __init__ pn) lines st) (pre ++ lines).
Proof.
  induction lines as [|v lines IH]; intros st pre Hg H.
  - rewrite app_nil_r. exact H.
  - inversion Hg as [|? ? Hv Hrest]; subst. cbn [fold_left].
    replace (pre ++ v :: lines) with ((pre ++ [v]) ++ lines)
      by (rewrite <- app_assoc; reflexivity).
    apply IH; [exact Hrest|]. apply step_conserved; assumption.
Qed.

Lemma fresh_conserved : conserved pn fresh_locals [].
Proof.
  repeat split.
  - exists []. repeat split. constructor.
  - constructor.
  - intros H. exfalso. apply H. reflexivity.
Qed.

Lemma save_last_conserved st lines :
  conserved pn st lines ->
  openings_of (save_last pn st) = flat_map (opening_of_line pn) lines
  /\ join_spaces (nonempty_contents (save_last pn st))
     = join_spaces (filter (fun l => negb (is_header l)) lines).
Proof.
  intros ((groups & Hne & Hcont & Hcat) & Hop & Hgood & Hopen).
  unfold save_last.
  destruct (current_content st) as [|x buf] eqn:Eb.
  - rewrite app_nil_r in Hcat.
    assert (E : forall o : option string,
              match o with
              | Some current => sections st
              | None => sections st
              end = sections st) by (intros []; reflexivity).
    rewrite E. split; [exact Hop|].
    rewrite Hcont, <- Hcat. apply join_groups, Hne.
  - assert (Ht : truthy_opt_str (current_section st) = true)
      by (apply Hopen; discriminate).
    destruct (current_section st) as [cur|]; [|discriminate Ht].
    simpl in Ht. rewrite Ht. split.
    + rewrite openings_of_app, Hop. unfold openings_of, saved.
      cbn [filter section_type]. apply app_nil_r.
    + rewrite nonempty_contents_app, Hcont, (saved_contents _ _ Hgood).
      rewrite <- Hcat.
      change (map join_spaces groups ++ [join_spaces (x :: buf)])
        with (map join_spaces groups ++ map join_spaces [x :: buf]).
      rewrite <- map_app, join_groups.
      * rewrite concat_app. cbn [List.concat]. rewrite app_nil_r.
        reflexivity.
      * apply Forall_app. split; auto. constructor; [discriminate|auto].
Qed.

End Conservation.

Section ConservationClaim.
Import Str StrFacts Run.

(** X5: no text of a page is lost, repeated or reordered: the openings among
    the records are those of the header lines, in order, and the contents
    with text, joined by single spaces, are the stripped lines that are no
    headers, joined by single spaces. *)
Theorem page_text_is_conserved (text : string) (pn : Z) :
  exists out,
    returns (_extract_sections text pn) out
    /\ openings_of out
       = flat_map (opening_of_line pn) (visible_lines (split_lines text))
    /\ join_spaces (nonempty_contents out)
       = join_spaces (text_lines (split_lines text)).
Proof.
  eexists. split; [apply extract_sections_run|].
  rewrite <- fold_visible. apply save_last_conserved.
  apply (fold_conserved pn (visible_lines (split_lines text)) fresh_locals []).
  - apply visible_good.
  - apply fresh_conserved.
Qed.

End ConservationClaim.

(** * The document as a whole *)

Section ProcessDocument.
Import Str StrFacts Run.

Lemma returns_unique {A : Type} (m : Py A) (v1 v2 : A) :
  returns m v1 -> returns m v2 -> v1 = v2.
Proof. unfold returns. intros H1 H2. rewrite H1 in H2. congruence. Qed.

Lemma page_round_run st n text :
  exists t a out,
    returns (_extract_title text) t
    /\ returns (_extract_abstract text) a
    /\ returns (_extract_sections text (Z.of_nat n + 1)) out
    /\ page_round st n text __init__
       = (inr {| Proc.sections := Proc.sections st ++ out;
                 Proc.title := if Nat.eqb n 0 then t else Proc.title st;
                 Proc.abstract :=
                   if (Nat.eqb n 0
                       && negb (truthy_opt_str (Proc.abstract st)))%bool
                   then a else Proc.abstract st |}, __init__).
Proof.
  destruct (extract_title_returns text) as [t Ht].
  destruct (extract_abstract_returns text) as [a Ha].
  exists t, a. eexists. split; [exact Ht|]. split; [exact Ha|].
  split; [apply extract_sections_run|].
  unfold page_round, bind.
  destruct (Nat.eqb n 0); cbn [andb].
  - rewrite Ht. destruct (negb (truthy_opt_str (Proc.abstract st))).
    + rewrite Ha, extract_sections_run. reflexivity.
    + cbn [ret]. rewrite extract_sections_run. reflexivity.
  - cbn [ret]. rewrite extract_sections_run. reflexivity.
Qed.

(** The records of the pages from number [n + 1] on, appended page by
    page. *)
Lemma page_loop_sections pages : forall n st,
  exists st' outs,
    page_loop pages n st __init__ = (inr st', __init__)
    /\ Proc.sections st' = Proc.sections st ++ List.concat outs
    /\ List.length outs = List.length pages
    /\ (forall i text out,
          nth_error pages i = Some text ->
          nth_error outs i = Some out ->
          returns (_extract_sections text (Z.of_nat (n + i) + 1)) out).
Proof.
  induction pages as [|text pages IH]; intros n st.
  - exists st, []. repeat split.
    + rewrite app_nil_r. reflexivity.
    + intros [|i] ? ? H; discriminate H.
  - destruct (page_round_run st n text) as (t & a & out & _ & _ & Hout & Hr).
    cbn [page_loop]. unfold bind at 1. rewrite Hr.
    match goal with
    | |- context [page_loop pages (S n) ?s] =>
        destruct (IH (S n) s) as (st' & outs & Hl & Hs & Hlen & Hnth)
    end.
    exists st', (out :: outs). rewrite Hl. split; [reflexivity|].
    split; [|split].
    + rewrite Hs. cbn [Proc.sections List.concat].
      rewrite app_assoc. reflexivity.
    + simpl. rewrite Hlen. reflexivity.
    + intros [|i] text' out' H1 H2; simpl in H1, H2.
      * injection H1 as <-. injection H2 as <-.
        rewrite Nat.add_0_r. exact Hout.
      * replace (n + S i) with (S n + i) by lia. eauto.
Qed.

(** After the first page the title and the abstract stay. *)
Lemma page_loop_keeps pages : forall n st,
  n <> 0 ->
  exists st',
    page_loop pages n st __init__ = (inr st', __init__)
    /\ Proc.title st' = Proc.title st
    /\ Proc.abstract st' = Proc.abstract st.
Proof.
  induction pages as [|text pages IH]; intros n st Hn.
  - exists st. auto.
  - destruct (page_round_run st n text) as (t & a & out & _ & _ & _ & Hr).
    cbn [page_loop]. unfold bind at 1. rewrite Hr.
    apply Nat.eqb_neq in Hn. rewrite Hn in *. cbn [andb].
    match goal with
    | |- context [page_loop pages (S n) ?s] =>
        destruct (IH (S n) s) as (st' & Hl & Ht & Ha); [lia|]
    end.
    exists st'. rewrite Hl, Ht, Ha. auto.
Qed.

Variable datetime : Type.
Variable isoformat : datetime -> string.
Variables now_upload now_metadata : datetime.
Variables file_path filename : string.

(** X6: on a constructed processor [process_document] returns for every
    document that could be opened; its sections are the records of the
    pages, page after page, page [i] segmented under the number [i + 1];
    the page count and the count of sections in the metadata are the
    lengths of the two lists. *)
Theorem document_sections_follow_pages (pages : list string) :
  exists info outs,
    process_document isoformat (inr pages) now_upload now_metadata
                     file_path filename __init__
    = (inr info, __init__)
    /\ Info.sections info = List.concat outs
    /\ List.length outs = List.length pages
    /\ (forall i text out,
          nth_error pages i = Some text ->
          nth_error outs i = Some out ->
          returns (_extract_sections text (Z.of_nat i + 1)) out)
    /\ Info.page_count info = Z.of_nat (List.length pages)
    /\ meta_get (Info.metadata info) "total_sections"
       = Some (VInt (Z.of_nat (List.length (Info.sections info)))).
Proof.
  unfold process_document.
  match goal with
  | |- context [page_loop pages 0 ?s] =>
      destruct (page_loop_sections pages 0 s)
        as (st' & outs & Hl & Hs & Hlen & Hnth)
  end.
  rewrite Hl. eexists. exists outs.
  split; [reflexivity|]. cbn [Info.sections Info.page_count Info.metadata].
  repeat split; auto.
Qed.

End ProcessDocument.

Section MissingKey.
Import Str StrFacts Run.

Lemma abstract_raises_without_key self text :
  dict_get (section_patterns self) "abstract" = None ->
  _extract_abstract text self = (inl (KeyError "abstract"), self).
Proof.
  intros H. unfold _extract_abstract.
  destruct (split_lines text) as [|l lines] eqn:E.
  - exfalso. apply (split_lines_nonempty text E).
  - cbn [abstract_scan]. unfold bind, getitem, items, bind.
    rewrite H. reflexivity.
Qed.

Lemma abstract_scan_with_key self p lines : forall i st,
  dict_get (section_patterns self) "abstract" = Some p ->
  exists r, abstract_scan lines i st self = (inr r, self).
Proof.
  induction lines as [|l lines IH]; intros i st H.
  - eexists. reflexivity.
  - cbn [abstract_scan]. unfold bind at 1.
    assert (G : getitem "abstract" self = (inr p, self)).
    { unfold getitem, items, bind. rewrite H. reflexivity. }
    rewrite G. destruct (Re.search p l); [apply IH, H|].
    destruct (truthy_opt_int st && abstract_end_rule l)%bool;
      [eexists; reflexivity | apply IH, H].
Qed.

(** X7: [_extract_abstract] looks up the key 'abstract' of the table: on a
    processor whose table lacks it the call raises [KeyError('abstract')]
    for every text, and with the key it returns; the other methods of the
    segmenter return whatever the table holds.  No call changes the
    object. *)
Theorem abstract_lookup_needs_its_key (self : DocumentProcessor)
  (text : string)
  (Hmissing : dict_get (section_patterns self) "abstract" = None) :
  _extract_abstract text self = (inl (KeyError "abstract"), self)
  /\ (forall self' p,
        dict_get (section_patterns self') "abstract" = Some p ->
        exists r, _extract_abstract text self' = (inr r, self'))
  /\ (exists t, _extract_title text self = (inr t, self))
  /\ (forall pn, exists out, _extract_sections text pn self = (inr out, self))
  /\ (forall line, exists ty,
        _identify_section_type line self = (inr ty, self)).
Proof.
  split; [apply abstract_raises_without_key, Hmissing|].
  split; [|split; [|split]].
  - intros self' p Hp. unfold _extract_abstract, bind.
    destruct (abstract_scan_with_key self' p (split_lines text) 0 None Hp)
      as [[s e] Hr].
    rewrite Hr. cbn [fst snd].
    destruct s as [s|]; [|eexists; reflexivity].
    destruct (truthy_opt_int (Some s)); [|eexists; reflexivity].
    match goal with
    | |- context [Nat.ltb 50 ?n] => destruct (Nat.ltb 50 n)
    end; eexists; reflexivity.
  - unfold _extract_title. destruct (title_scan _); eexists; reflexivity.
  - intros pn. eexists. apply extract_sections_run.
  - intros line. eexists. apply identify_run.
Qed.

Lemma abstract_lookup_needs_its_key_witness :
  _extract_abstract "Abstract" {| section_patterns := [] |}
  = (inl (KeyError "abstract"), {| section_patterns := [] |}).
Proof.
  apply (abstract_lookup_needs_its_key {| section_patterns := [] |} "Abstract").
  reflexivity.
Defined.

End MissingKey.

Section PageOrder.
Import Str StrFacts Run.

Lemma sections_page text pn out :
  returns (_extract_sections text pn) out ->
  Forall (fun r => page_number r = pn) out.
Proof.
  intros H.
  rewrite (returns_unique _ _ _ H (extract_sections_run __init__ text pn)).
  eapply Forall_impl; [|apply save_last_ok, fold_ok, fresh_ok].
  intros r Hr. apply Hr.
Qed.

Lemma sorted_app (l1 l2 : list Z) :
  StronglySorted Z.le l1 -> StronglySorted Z.le l2 ->
  (forall x y, In x l1 -> In y l2 -> (x <= y)%Z) ->
  StronglySorted Z.le (l1 ++ l2).
Proof.
  intros H1 H2 H. induction H1 as [|x l1 Hs IH Hx]; simpl; auto.
  constructor.
  - apply IH. intros; apply H; simpl; auto.
  - apply Forall_app. split; auto.
    apply Forall_forall. intros y Hy. apply H; simpl; auto.
Qed.

Lemma sorted_constant (c : Z) (l : list Z) :
  Forall (fun x => x = c) l -> StronglySorted Z.le l.
Proof.
  induction 1 as [|x l Hx Hl IH]; constructor; auto.
  subst. eapply Forall_impl; [|exact Hl]. intros y ->. lia.
Qed.

Lemma concat_pages (outs : list (list DocumentSection)) : forall n,
  (forall i out, nth_error outs i = Some out ->
     Forall (fun r => page_number r = (Z.of_nat (n + i) + 1)%Z) out) ->
  Forall (fun r => (Z.of_nat n + 1 <= page_number r
                    <= Z.of_nat (n + List.length outs))%Z)
         (List.concat outs)
  /\ StronglySorted Z.le (map page_number (List.concat outs)).
Proof.
  induction outs as [|out outs IH]; intros n H.
  - split; constructor.
  - pose proof (H 0 out eq_refl) as Hout. rewrite Nat.add_0_r in Hout.
    destruct (IH (S n)) as [Hb Hs].
    { intros i o Hi. replace (S n + i) with (n + S i) by lia.
      apply H. exact Hi. }
    cbn [List.concat List.length]. split.
    + apply Forall_app. split.
      * eapply Forall_impl; [|exact Hout]. intros r ->. lia.
      * eapply Forall_impl; [|exact Hb]. intros r Hr. simpl in Hr. lia.
    + rewrite map_app. apply sorted_app; auto.
      * apply (sorted_constant (Z.of_nat n + 1)%Z).
        apply Forall_forall. intros x Hx.
        apply in_map_iff in Hx as (r & <- & Hr).
        rewrite Forall_forall in Hout. auto.
      * intros x y Hx Hy.
        apply in_map_iff in Hx as (r & <- & Hr).
        apply in_map_iff in Hy as (r' & <- & Hr').
        rewrite Forall_forall in Hout, Hb.
        rewrite (Hout r Hr). specialize (Hb r' Hr'). simpl in Hb. lia.
Qed.

Variable datetime : Type.
Variable isoformat : datetime -> string.
Variables now_upload now_metadata : datetime.
Variables file_path filename : string.

(** X8: the sections of a document are in page order: every record carries a
    page number from 1 to the page count, and along the list the page
    numbers never decrease. *)
Theorem sections_are_in_page_order (pages : list string) :
  exists info,
    process_document isoformat (inr pages) now_upload now_metadata
                     file_path filename __init__
    = (inr info, __init__)
    /\ Forall (fun r => (1 <= page_number r <= Info.page_count info)%Z)
              (Info.sections info)
    /\ StronglySorted Z.le (map page_number (Info.sections info)).
Proof.
  unfold process_document.
  match goal with
  | |- context [page_loop pages 0 ?s] =>
      destruct (page_loop_sections pages 0 s)
        as (st' & outs & Hl & Hs & Hlen & Hnth)
  end.
  rewrite Hl. eexists. split; [reflexivity|].
  cbn [Info.sections Info.page_count]. rewrite Hs. cbn [Proc.sections app].
  destruct (concat_pages outs 0) as [Hb Hsorted].
  { intros i out Hi.
    destruct (nth_error pages i) as [text|] eqn:Ep.
    - apply (sections_page text). eapply Hnth; eauto.
    - apply nth_error_None in Ep.
      assert (i < List.length outs) by (apply nth_error_Some; congruence).
      lia. }
  split; [|exact Hsorted].
  eapply Forall_impl; [|exact Hb]. intros r Hr. simpl in Hr.
  rewrite Hlen in Hr. lia.
Qed.

(** X9: the title and the abstract of a document are those of its first page,
    whatever the later pages hold; the metadata flag [has_abstract] tells
    whether the first page gave an abstract.  A document without pages gets
    the file name with every ".pdf" removed as its title, no abstract and no
    sections. *)
Theorem title_and_abstract_come_from_first_page :
  (forall first rest,
     exists info t a,
       process_document isoformat (inr (first :: rest)) now_upload now_metadata
                        file_path filename __init__
       = (inr info, __init__)
       /\ returns (_extract_title first) t
       /\ returns (_extract_abstract first) a
       /\ Info.title info = t
       /\ Info.abstract info = a
       /\ meta_get (Info.metadata info) "has_abstract"
          = Some (VBool (is_not_None a)))
  /\ (exists info,
        process_document isoformat (inr []) now_upload now_metadata
                         file_path filename __init__
        = (inr info, __init__)
        /\ Info.title info = replace ".pdf" "" filename
        /\ Info.abstract info = None
        /\ Info.sections info = []
        /\ Info.page_count info = 0%Z).
Proof.
  split.
  - intros first rest. unfold process_document. cbn [page_loop].
    unfold bind at 1.
    match goal with
    | |- context [page_round ?s 0 first] =>
        destruct (page_round_run s 0 first)
          as (t & a & out & Ht & Ha & _ & Hr)
    end.
    rewrite Hr. cbn [Nat.eqb Proc.abstract truthy_opt_str negb andb].
    match goal with
    | |- context [page_loop rest 1 ?s] =>
        destruct (page_loop_keeps rest 1 s) as (st' & Hl & Et & Ea);
          [discriminate|]
    end.
    rewrite Hl. eexists. exists t, a.
    split; [reflexivity|]. cbn [Info.title Info.abstract Info.metadata].
    rewrite Et, Ea. cbn [Proc.title Proc.abstract].
    repeat split; auto.
  - eexists. split; [reflexivity|]. repeat split.
Qed.

(** X10: whatever fails inside [process_document] is raised again as one
    exception whose message starts with "Error processing document: ": the
    failure to open the file with the message of the library, and, on a
    processor whose table lacks the key 'abstract', the [KeyError] of the
    first page. *)
Theorem failures_are_wrapped (self : DocumentProcessor)
  (first : string) (rest : list string)
  (Hmissing : dict_get (section_patterns self) "abstract" = None) :
  process_document isoformat (inr (first :: rest)) now_upload now_metadata
                   file_path filename self
  = (inl (Exception "Error processing document: 'abstract'"), self)
  /\ forall self' message,
       process_document isoformat (inl message) now_upload now_metadata
                        file_path filename self'
       = (inl (Exception ("Error processing document: " ++ message)%string),
          self').
Proof.
  split; [|reflexivity].
  unfold process_document. cbn [page_loop]. unfold bind at 1.
  unfold page_round. cbn [Nat.eqb Proc.abstract truthy_opt_str negb andb].
  unfold bind at 1.
  assert (Ht : exists t, _extract_title first self = (inr t, self)).
  { unfold _extract_title. destruct (title_scan _); eexists; reflexivity. }
  destruct Ht as [t Ht]. rewrite Ht.
  unfold bind at 1.
  rewrite (abstract_raises_without_key self first Hmissing). reflexivity.
Qed.

End PageOrder.

Lemma failures_are_wrapped_witness :
  process_document (fun t : unit => "now") (inr ["Abstract"; "page two"]) tt tt
                   "uploads/x.pdf" "x.pdf" {| section_patterns := [] |}
  = (inl (Exception "Error processing document: 'abstract'"),
     {| section_patterns := [] |}).
Proof.
  apply (failures_are_wrapped unit (fun t : unit => "now") tt tt
           "uploads/x.pdf" "x.pdf" {| section_patterns := [] |}
           "Abstract" ["page two"]).
  reflexivity.
Defined.

(** * The abstract: what a result tells *)

Section AbstractShape.
Import Str StrFacts Run.

Lemma abstract_result_cases text r :
  returns (_extract_abstract text) r ->
  r = None \/ exists a b, r = abstract_of_range (split_lines text) a b.
Proof.
  unfold returns, _extract_abstract, bind. rewrite abstract_scan_run.
  destruct (scan (split_lines text) 0 None) as [[s|] e]; cbn [fst snd].
  - destruct (truthy_opt_int (Some s)).
    + assert (G : forall b, 
                (if Nat.ltb 50 (String.length
                                  (strip (join_spaces (slice (split_lines text) s b))))
                 then ret (Some (strip (join_spaces
                                          (slice (split_lines text) s b))))
                 else ret None) __init__ = (inr r, __init__) ->
                r = abstract_of_range (split_lines text) s b).
      { intros b H. unfold abstract_of_range.
        destruct (Nat.ltb 50 _); apply succeeds_inj in H; auto. }
      destruct e as [stop|]; [destruct (truthy_opt_int (Some stop))|];
        intros H; right; eauto.
    + intros H. apply succeeds_inj in H. auto.
  - intros H. apply succeeds_inj in H. auto.
Qed.

Lemma no_heading_no_abstract text :
  (forall i, line_is_not (split_lines text) i is_heading) ->
  returns (_extract_abstract text) None.
Proof.
  intros Hno. apply (extract_abstract_unstarted text None).
  set (lines := split_lines text) in *.
  change (scan lines 0 None) with (scan (skipn 0 lines) 0 None).
  rewrite (walk_quiet lines (List.length lines) 0 None);
    [| simpl; lia | intros; apply Hno | discriminate].
  simpl. rewrite skipn_all. reflexivity.
Qed.

(** X11: an abstract, when one is returned, has more than 50 characters and no
    white space at either end, and some line of the page matches the
    'abstract' rule. *)
Theorem abstract_is_long_and_trimmed (text a : string)
  (Hsome : returns (_extract_abstract text) (Some a)) :
  50 < String.length a
  /\ trimmed a
  /\ exists i, line_is (split_lines text) i is_heading.
Proof.
  split; [|split].
  - destruct (abstract_result_cases _ _ Hsome) as [H|(x & y & H)];
      [discriminate|].
    unfold abstract_of_range in H.
    destruct (Nat.ltb 50 _) eqn:E; [|discriminate].
    injection H as ->. apply Nat.ltb_lt. exact E.
  - destruct (abstract_result_cases _ _ Hsome) as [H|(x & y & H)];
      [discriminate|].
    unfold abstract_of_range in H.
    destruct (Nat.ltb 50 _); [|discriminate].
    injection H as ->. apply strip_trimmed.
  - destruct (existsb is_heading (split_lines text)) eqn:E.
    + apply existsb_exists in E as (l & Hin & Hl).
      apply In_nth_error in Hin as [i Hi]. exists i, l. auto.
    + exfalso.
      assert (Hnone : returns (_extract_abstract text) None).
      { apply no_heading_no_abstract. intros i l Hl.
        destruct (is_heading l) eqn:Eh; auto.
        assert (existsb is_heading (split_lines text) = true).
        { apply existsb_exists. exists l. split; auto.
          eapply nth_error_In; eauto. }
        congruence. }
      pose proof (returns_unique _ _ _ Hsome Hnone). discriminate.
Qed.

Lemma abstract_is_long_and_trimmed_witness :
  50 < String.length
         "This paper examines widget durability across fifty trials in controlled settings."
  /\ trimmed
       "This paper examines widget durability across fifty trials in controlled settings."
  /\ exists i, line_is (split_lines page_with_one_heading) i is_heading.
Proof.
  apply (abstract_is_long_and_trimmed page_with_one_heading).
  reflexivity.
Defined.

Lemma heading_initial_is_no_space c :
  heading_initial c = true -> Char.is_space c = false.
Proof.
  destruct c as [[] [] [] [] [] [] [] []]; vm_compute; congruence.
Qed.

(** X12: [_extract_abstract] tests the lines as they are, not stripped: on a
    page all of whose lines are empty or begin with white space no line is
    a heading and there is no abstract, although [_extract_sections], which
    strips the lines, may find the header. *)
Theorem indented_page_has_no_abstract (text : string)
  (Hind : Forall indented (split_lines text)) :
  returns (_extract_abstract text) None
  /\ forall l, In l (split_lines text) -> is_heading l = false.
Proof.
  assert (H : forall l, In l (split_lines text) -> is_heading l = false).
  { intros l Hl. rewrite Forall_forall in Hind. specialize (Hind l Hl).
    destruct (is_heading l) eqn:E; auto.
    apply heading_first in E as (c & t & -> & Hc).
    apply heading_initial_is_no_space in Hc. simpl in Hind. congruence. }
  split; [|exact H].
  apply no_heading_no_abstract. intros i l Hl.
  apply H. eapply nth_error_In; eauto.
Qed.

Lemma indented_page_has_no_abstract_witness :
  returns (_extract_abstract
             (" Abstract" ++ line_feed
              ++ " This paper examines widget durability across fifty trials in controlled settings."
              ++ line_feed ++ " Keywords: none")%string) None.
Proof.
  apply (indented_page_has_no_abstract
           (" Abstract" ++ line_feed
            ++ " This paper examines widget durability across fifty trials in controlled settings."
            ++ line_feed ++ " Keywords: none")%string).
  repeat constructor.
Defined.

End AbstractShape.

(** * What reaches the vector store *)

Section BatchFacts.
Import Str StrFacts Run.

Lemma of_int_inj (n m : Z) : of_int n = of_int m -> n = m.
Proof.
  unfold of_int. intros H.
  assert (G : forall z, NilZero.int_of_string (NilZero.string_of_int (Z.to_int z))
                        = Some (Z.to_int z)).
  { intros z. apply NilZero.isi; destruct z; simpl; try discriminate.
    - intros E. injection E as E.
      apply (DecimalPos.Unsigned.to_uint_nonnil _ E).
    - intros E. injection E as E.
      apply (DecimalPos.Unsigned.to_uint_nonnil _ E). }
  apply DecimalZ.to_int_inj.
  pose proof (G n) as Gn. rewrite H, G in Gn. congruence.
Qed.

Lemma append_inv_head (p a b : string) :
  (p ++ a)%string = (p ++ b)%string -> a = b.
Proof. induction p as [|c p IH]; simpl; intros H; [auto|]. injection H. auto. Qed.

Lemma section_id_inj fid i j : section_id fid i = section_id fid j -> i = j.
Proof.
  unfold section_id. intros H.
  apply append_inv_head, append_inv_head, of_int_inj in H.
  apply Nat2Z.inj. exact H.
Qed.

Lemma section_id_is_no_abstract_id fid i :
  section_id fid i <> (fid ++ "_abstract")%string.
Proof.
  unfold section_id. intros H. apply append_inv_head in H. discriminate H.
Qed.

Lemma nodup_map_inj {A B : Type} (f : A -> B) (l : list A) :
  (forall x y, f x = f y -> x = y) -> NoDup l -> NoDup (map f l).
Proof.
  intros Hf. induction 1 as [|x l Hx Hl IH]; simpl; constructor; auto.
  intros Hin. apply in_map_iff in Hin as (y & Hy & Hin).
  apply Hf in Hy. subst. contradiction.
Qed.

Lemma nodup_snoc {A : Type} (l : list A) (x : A) :
  NoDup l -> ~ In x l -> NoDup (l ++ [x]).
Proof.
  induction 1 as [|y l Hy Hl IH]; simpl; intros Hx.
  - constructor; [intros []|constructor].
  - constructor.
    + intros Hin. apply in_app_or in Hin as [Hin|[<-|[]]]; auto.
    + apply IH. auto.
Qed.

Variable datetime : Type.
Variable doc_info : Info.DocumentInfo datetime.

Lemma add_sections_spec sections : forall i b,
  exists idxs,
    Batch.documents (add_sections doc_info sections i b)
    = Batch.documents b
      ++ map content
           (filter (fun s => truthy_str (strip (content s))) sections)
    /\ Batch.metadatas (add_sections doc_info sections i b)
       = Batch.metadatas b
         ++ map (section_metadata doc_info)
              (filter (fun s => truthy_str (strip (content s))) sections)
    /\ Batch.ids (add_sections doc_info sections i b)
       = Batch.ids b ++ map (section_id (Info.file_id doc_info)) idxs
    /\ List.length idxs
       = List.length
           (filter (fun s => truthy_str (strip (content s))) sections)
    /\ Forall (fun k => i <= k) idxs
    /\ NoDup idxs.
Proof.
  induction sections as [|s sections IH]; intros i b.
  - exists []. cbn. rewrite !app_nil_r. repeat split; constructor.
  - cbn [add_sections filter].
    destruct (truthy_str (strip (content s))).
    + match goal with
      | |- context [add_sections doc_info sections (S i) ?b1] =>
          destruct (IH (S i) b1) as (idxs & Hd & Hm & Hi & Hlen & Hge & Hnd)
      end.
      exists (i :: idxs). rewrite Hd, Hm, Hi.
      cbn [Batch.documents Batch.metadatas Batch.ids map List.length].
      rewrite <- !app_assoc. repeat split; auto.
      * constructor; [lia|].
        eapply Forall_impl; [|exact Hge]. intros k Hk. simpl in Hk. lia.
      * constructor; auto. intros Hin.
        rewrite Forall_forall in Hge. specialize (Hge i Hin). lia.
    + destruct (IH (S i) b) as (idxs & Hd & Hm & Hi & Hlen & Hge & Hnd).
      exists idxs. repeat split; auto.
      eapply Forall_impl; [|exact Hge]. intros k Hk. simpl in Hk. lia.
Qed.

(** X13: the three lists that [add_document] hands to the vector store have the
    same length, and no identifier occurs twice among them, so every
    document of the batch has its own metadata and its own key. *)
Theorem batch_lists_align_and_ids_differ :
  List.length (Batch.documents (add_document_batch doc_info))
  = List.length (Batch.ids (add_document_batch doc_info))
  /\ List.length (Batch.metadatas (add_document_batch doc_info))
     = List.length (Batch.ids (add_document_batch doc_info))
  /\ NoDup (Batch.ids (add_document_batch doc_info)).
Proof.
  unfold add_document_batch.
  match goal with
  | |- context [add_sections doc_info ?ss 0 ?b0] =>
      destruct (add_sections_spec ss 0 b0)
        as (idxs & Hd & Hm & Hi & Hlen & _ & Hnd);
        set (b := add_sections doc_info ss 0 b0) in *
  end.
  cbn [Batch.documents Batch.metadatas Batch.ids app] in Hd, Hm, Hi.
  assert (Hb : List.length (Batch.documents b) = List.length (Batch.ids b)
               /\ List.length (Batch.metadatas b) = List.length (Batch.ids b)
               /\ NoDup (Batch.ids b)).
  { rewrite Hd, Hm, Hi, !length_map. repeat split; auto.
    apply nodup_map_inj; [apply section_id_inj | exact Hnd]. }
  destruct Hb as (H1 & H2 & H3).
  destruct (Info.abstract doc_info) as [a|]; [|auto].
  destruct (truthy_str a); [|auto].
  cbn [Batch.documents Batch.metadatas Batch.ids].
  rewrite !length_app, H1, H2. repeat split; auto.
  apply nodup_snoc; auto.
  rewrite Hi. intros Hin. apply in_map_iff in Hin as (k & Hk & _).
  apply (section_id_is_no_abstract_id _ _ Hk).
Qed.

End BatchFacts.

Section Indexing.
Import Str StrFacts Run.

Lemma page_loop_first first rest st :
  Proc.abstract st = None ->
  exists st' t a,
    page_loop (first :: rest) 0 st __init__ = (inr st', __init__)
    /\ returns (_extract_title first) t
    /\ returns (_extract_abstract first) a
    /\ Proc.title st' = t
    /\ Proc.abstract st' = a.
Proof.
  intros Hnone. cbn [page_loop]. unfold bind at 1.
  destruct (page_round_run st 0 first) as (t & a & out & Ht & Ha & _ & Hr).
  rewrite Hr, Hnone. cbn [Nat.eqb truthy_opt_str negb andb].
  match goal with
  | |- context [page_loop rest 1 ?s] =>
      destruct (page_loop_keeps rest 1 s) as (st' & Hl & Et & Ea);
        [discriminate|]
  end.
  exists st', t, a. rewrite Hl, Et, Ea. auto.
Qed.

Lemma page_loop_abstract pages st st' :
  Proc.abstract st = None ->
  page_loop pages 0 st __init__ = (inr st', __init__) ->
  forall a, Proc.abstract st' = Some a -> truthy_str a = true.
Proof.
  intros Hnone Hl a Ha. destruct pages as [|first rest].
  - cbn in Hl. apply succeeds_inj in Hl. subst. congruence.
  - destruct (page_loop_first first rest st Hnone)
      as (st1 & t & a1 & Hl1 & _ & Ha1 & _ & E).
    rewrite Hl1 in Hl. apply succeeds_inj in Hl. subst st1.
    rewrite Ha in E. subst a1.
    destruct (abstract_result_cases _ _ Ha1) as [H|(x & y & H)];
      [discriminate|].
    unfold abstract_of_range in H.
    destruct (Nat.ltb 50 _) eqn:El; [|discriminate].
    injection H as ->. apply Nat.ltb_lt in El.
    destruct (strip _); [simpl in El; lia | reflexivity].
Qed.

Lemma page_loop_records pages st st' :
  Proc.sections st = [] ->
  page_loop pages 0 st __init__ = (inr st', __init__) ->
  Forall (fun r => record_shape r /\ trimmed (content r)) (Proc.sections st').
Proof.
  intros Hnil Hl.
  destruct (page_loop_sections pages 0 st)
    as (st1 & outs & Hl1 & Hs & Hlen & Hnth).
  rewrite Hl1 in Hl. apply succeeds_inj in Hl. subst st1.
  rewrite Hs, Hnil. cbn [app].
  apply Forall_forall. intros r Hr.
  apply in_concat in Hr as (out & Hout & Hr).
  apply In_nth_error in Hout as [i Hi].
  assert (Hlt : i < List.length pages).
  { rewrite <- Hlen. apply nth_error_Some. congruence. }
  destruct (nth_error pages i) as [text|] eqn:Ep;
    [|apply nth_error_None in Ep; lia].
  pose proof (Hnth i text out Ep Hi) as Hret.
  rewrite (returns_unique _ _ _ Hret
             (extract_sections_run __init__ text (Z.of_nat (0 + i) + 1))) in Hr.
  split.
  - pose proof (save_last_shape (Z.of_nat (0 + i) + 1) _
                  (fold_shape (Z.of_nat (0 + i) + 1) (split_lines text)
                     fresh_locals (Forall_nil _))) as Hshape.
    rewrite Forall_forall in Hshape. apply Hshape, Hr.
  - pose proof (save_last_ok (Z.of_nat (0 + i) + 1) _
                  (fold_ok __init__ (Z.of_nat (0 + i) + 1) (split_lines text)
                     _ (fresh_ok (Z.of_nat (0 + i) + 1)))) as Hok.
    rewrite Forall_forall in Hok. apply (Hok r Hr).
Qed.

Variable datetime : Type.
Variable isoformat : datetime -> string.
Variables now_upload now_metadata : datetime.
Variables path filename : string.

(** X14: what [add_document] indexes for a document that [process_document]
    returned and the caller gave an identifier: the contents that are not
    empty, in order, each from a record of type 'section', and then the
    abstract when there is one.  The record that opens a section, with its
    detected type, is never indexed. *)
Theorem only_saved_sections_are_indexed (pages : list string)
  (file_id : string) :
  exists info,
    process_document isoformat (inr pages) now_upload now_metadata
                     path filename __init__
    = (inr info, __init__)
    /\ let doc_info := assign_file info file_id path in
       let kept := filter (fun r => negb (is_empty (content r)))
                          (Info.sections info) in
       Forall (fun r => section_type r = "section") kept
       /\ Batch.documents (add_document_batch doc_info)
          = map content kept
            ++ match Info.abstract info with
               | Some a => [a]
               | None => []
               end
       /\ Batch.metadatas (add_document_batch doc_info)
          = map (section_metadata doc_info) kept
            ++ match Info.abstract info with
               | Some _ => [abstract_metadata doc_info]
               | None => []
               end.
Proof.
  unfold process_document.
  destruct (page_loop pages 0
              {| Proc.sections := [];
                 Proc.title := replace ".pdf" "" filename;
                 Proc.abstract := None |} __init__) as [[e|st'] self'] eqn:Hl.
  { destruct (page_loop_sections pages 0
                {| Proc.sections := [];
                   Proc.title := replace ".pdf" "" filename;
                   Proc.abstract := None |}) as (st1 & outs & Hl1 & _).
    rewrite Hl1 in Hl. discriminate Hl. }
  assert (Eself : self' = __init__).
  { destruct (page_loop_sections pages 0
                {| Proc.sections := [];
                   Proc.title := replace ".pdf" "" filename;
                   Proc.abstract := None |}) as (st1 & outs & Hl1 & _).
    rewrite Hl1 in Hl. congruence. }
  subst self'.
  pose proof (page_loop_records pages
                {| Proc.sections := [];
                 Proc.title := replace ".pdf" "" filename;
                 Proc.abstract := None |} st' eq_refl Hl) as Hrec.
  pose proof (page_loop_abstract pages
                {| Proc.sections := [];
                 Proc.title := replace ".pdf" "" filename;
                 Proc.abstract := None |} st' eq_refl Hl) as Habs.
  eexists. split; [reflexivity|].
  cbn [Info.sections Info.abstract]. cbv zeta.
  set (doc_info := assign_file _ file_id path).
  assert (Hfilter :
            filter (fun s => truthy_str (strip (content s))) (Proc.sections st')
            = filter (fun r => negb (is_empty (content r)))
                     (Proc.sections st')).
  { apply filter_ext_in. intros r Hr.
    rewrite Forall_forall in Hrec. destruct (Hrec r Hr) as [_ Ht].
    rewrite (strip_fixed _ Ht). reflexivity. }
  split; [|split].
  - apply Forall_forall. intros r Hr.
    apply filter_In in Hr as [Hr Hne].
    rewrite Forall_forall in Hrec. destruct (Hrec r Hr) as [[_ Hs] _].
    destruct Hs as [[Hc _]|Hs]; [|exact Hs].
    rewrite Hc in Hne. discriminate Hne.
  - unfold add_document_batch.
    change (Info.sections doc_info) with (Proc.sections st').
    change (Info.abstract doc_info) with (Proc.abstract st').
    destruct (add_sections_spec datetime doc_info (Proc.sections st') 0
                {| Batch.documents := []; Batch.metadatas := [];
                   Batch.ids := [] |}) as (idxs & Hd & _).
    rewrite Hfilter in Hd. cbn [Batch.documents app] in Hd.
    destruct (Proc.abstract st') as [a|] eqn:Ea.
    + rewrite (Habs a eq_refl). cbn [Batch.documents]. rewrite Hd.
      reflexivity.
    + rewrite Hd, app_nil_r. reflexivity.
  - unfold add_document_batch.
    change (Info.sections doc_info) with (Proc.sections st').
    change (Info.abstract doc_info) with (Proc.abstract st').
    destruct (add_sections_spec datetime doc_info (Proc.sections st') 0
                {| Batch.documents := []; Batch.metadatas := [];
                   Batch.ids := [] |}) as (idxs & _ & Hm & _).
    rewrite Hfilter in Hm. cbn [Batch.metadatas app] in Hm.
    destruct (Proc.abstract st') as [a|] eqn:Ea.
    + rewrite (Habs a eq_refl). cbn [Batch.metadatas]. rewrite Hm.
      reflexivity.
    + rewrite Hm, app_nil_r. reflexivity.
Qed.

End Indexing.

(** * The title rule, and how many records a page yields *)

Section TitleRule.
Import Str StrFacts Run.

Lemma star_none_of_inv ic cs (k : bool -> string -> bool) : forall s b,
  Re.exec ic (Re.Star (Re.NoneOf cs)) b s k = true ->
  exists pre post b',
    s = (pre ++ post)%string
    /\ (forall x, In x (list_ascii_of_string pre) -> Re.mem cs x = false)
    /\ k b' post = true.
Proof.
  induction s as [|x s IH]; intros b H.
  - exists "", "", b. repeat split; [intros x []|exact H].
  - rewrite star_none_of_cons in H. apply orb_true_iff in H as [H|H].
    + apply andb_true_iff in H as [Hx H]. apply negb_true_iff in Hx.
      apply IH in H as (pre & post & b' & -> & Hpre & Hk).
      exists (String x pre), post, b'. repeat split; auto.
      intros y [<-|Hy]; auto.
    + exists "", (String x s), b. repeat split; [intros y []|exact H].
Qed.

Lemma title_pattern_inv line :
  Re.search Patterns.title line = true ->
  exists c rest,
    line = String c rest
    /\ Char.is_upper_AZ c = true
    /\ no_terminal_punctuation line.
Proof.
  unfold Patterns.title, Patterns.Cat, Patterns.upper_AZ.
  cbn [fold_right]. rewrite search_bol.
  destruct line as [|c rest]; [discriminate|].
  change ((Re.mem (Re.Range "A" "Z") c
           && Re.exec false
                (Re.Star (Re.NoneOf (Re.Chars ["."; "!"; "?"]%char))) false rest
                (fun b s => Re.exec false (Re.Seq Re.Eol Re.Eps) b s
                              (fun _ _ => true)))%bool = true
          -> exists c0 rest0,
               String c rest = String c0 rest0
               /\ Char.is_upper_AZ c0 = true
               /\ no_terminal_punctuation (String c rest)).
  intros H. apply andb_true_iff in H as [Hc H].
  exists c, rest. split; [reflexivity|]. split; [exact Hc|].
  apply star_none_of_inv in H as (pre & post & b' & -> & Hpre & Hk).
  assert (Hpost : post = "" \/ post = String Char.newline "").
  { cbn in Hk. destruct post as [|y [|z post]]; auto; [|discriminate Hk].
    right. simpl in Hk. rewrite andb_true_r in Hk.
    apply Ascii.eqb_eq in Hk. subst. reflexivity. }
  assert (Hnot : forall x, Re.mem (Re.Chars ["."; "!"; "?"]%char) x = false ->
                           x <> "."%char /\ x <> "!"%char /\ x <> "?"%char).
  { intros x Hx. cbn in Hx.
    repeat (apply orb_false_iff in Hx as [? Hx]).
    repeat split; apply Ascii.eqb_neq; assumption. }
  intros x [<-|Hx].
  - destruct c as [[] [] [] [] [] [] [] []]; try discriminate Hc;
      repeat split; discriminate.
  - assert (Hin : In x (list_ascii_of_string pre)
                  \/ In x (list_ascii_of_string post)).
    { clear -Hx. induction pre as [|y pre IH]; simpl in *; auto.
      destruct Hx as [->|Hx]; auto. destruct (IH Hx); auto. }
    destruct Hin as [Hin|Hin]; [apply Hnot, Hpre, Hin|].
    destruct Hpost as [->| ->]; [destruct Hin|].
    destruct Hin as [<-|[]]. repeat split; discriminate.
Qed.

(** X15: a line is classified 'title' exactly when it starts with a capital
    A..Z and holds none of [.], [!], [?]: a line with such a mark, or one
    that starts otherwise, is never a 'title'. *)
Theorem title_rule_is_exact (line : string) :
  returns (_identify_section_type line) (Some "title")
  <-> exists c rest,
        line = String c rest
        /\ Char.is_upper_AZ c = true
        /\ no_terminal_punctuation line.
Proof.
  split.
  - intros H. unfold returns in H. rewrite identify_run in H.
    apply succeeds_inj in H. cbn [first_match section_patterns __init__] in H.
    destruct (Re.search Patterns.title line) eqn:E.
    + apply title_pattern_inv, E.
    + exfalso.
      match type of H with
      | ?t = _ =>
          change t with
            (first_match (tl (section_patterns __init__)) line) in H
      end.
      apply first_match_some in H as (t1 & p & t2 & Et & _ & _).
      assert (Hin : In "title" (map fst (tl (section_patterns __init__)))).
      { rewrite Et, map_app. apply in_or_app. right. left. reflexivity. }
      simpl in Hin. intuition discriminate.
  - intros (c & rest & -> & Hc & Hp). unfold returns.
    rewrite identify_run, (capital_is_title_type c rest Hc Hp). reflexivity.
Qed.

End TitleRule.

Section RecordCount.
Import Str StrFacts Run.

Variable pn : Z.

Lemma closing_length st : List.length (closing pn st) <= 1.
Proof.
  unfold closing. destruct (current_section st) as [cur|]; [|simpl; lia].
  destruct (truthy_str cur); simpl; lia.
Qed.

Lemma step_count st v :
  good_line v ->
  List.length (sections (step __init__ pn st v))
  = List.length (sections st)
    + (if is_header v then 1 + List.length (closing pn st) else 0).
Proof.
  intros Hv. pose proof (good_not_blank _ Hv) as Hb.
  assert (Ev : strip v = v) by (apply strip_fixed, Hv).
  unfold is_header.
  destruct (classify __init__ v) as [ty|] eqn:Hc; rewrite <- Ev in Hc.
  - rewrite (step_header _ _ _ _ _ Hb Hc). cbn [sections].
    rewrite !length_app. simpl. lia.
  - rewrite (step_body _ _ _ _ Hb Hc). cbn [sections]. lia.
Qed.

Lemma fold_count lines : forall st,
  Forall good_line lines ->
  List.length (sections st) + List.length (filter is_header lines)
  <= List.length (sections (fold_left (step __init__ pn) lines st))
  <= List.length (sections st) + 2 * List.length (filter is_header lines).
Proof.
  induction lines as [|v lines IH]; intros st Hg; [simpl; lia|].
  inversion Hg as [|? ? Hv Hrest]; subst.
  cbn [fold_left filter].
  specialize (IH (step __init__ pn st v) Hrest).
  rewrite (step_count st v Hv) in IH.
  pose proof (closing_length st).
  destruct (is_header v); simpl List.length in *; lia.
Qed.

Lemma save_last_count st :
  List.length (sections st) <= List.length (save_last pn st)
  <= List.length (sections st) + 1.
Proof.
  unfold save_last. destruct (current_section st) as [cur|]; [|lia].
  destruct (current_content st); [lia|].
  destruct (truthy_str cur); [|lia]. rewrite length_app. simpl. lia.
Qed.

End RecordCount.

(** X16: a page with [h] header lines yields at least [h] and at most
    [2 * h + 1] records. *)
Theorem record_count_is_bounded (text : string) (pn : Z) :
  exists out,
    returns (_extract_sections text pn) out
    /\ header_count (Str.split_lines text) <= List.length out
       <= 2 * header_count (Str.split_lines text) + 1.
Proof.
  eexists. split; [apply Run.extract_sections_run|].
  rewrite <- fold_visible. unfold header_count.
  pose proof (fold_count pn (visible_lines (Str.split_lines text)) fresh_locals
                (visible_good _)) as H.
  pose proof (save_last_count pn
                (fold_left (step __init__ pn)
                   (visible_lines (Str.split_lines text)) fresh_locals)) as H'.
  change (List.length (sections fresh_locals)) with 0 in H. lia.
Qed.
